(** * stk-memes: provisioning orchestrator ([main.go])

    A shallow embedding of [main] of [main.go].  The program is one
    straight-line orchestration with a single loop; every interaction with
    the outside world (file system, cloud provider, ssh library, clock) is a
    call whose answer is taken from an environment [Env], and every such call
    is recorded in a trace.  [log.Fatalln] ends the process through
    [os.Exit(1)], which does not run deferred calls; returning from [main]
    and panicking do run them. *)

From Stdlib Require Import String Ascii List ZArith Lia Bool Arith.
Import ListNotations.
Open Scope string_scope.

(** ** Go values *)

(** A Go [error] value is represented by its message. *)
Definition error := string.

(** The pair [(value, err)] returned by a fallible Go call. *)
Inductive result (A : Type) : Type :=
| Ok (a : A)
| Err (e : error).
Arguments Ok {A} a.
Arguments Err {A} e.

(** Opaque handles handed out by the operating system and the ssh library. *)
Definition File := nat.
Definition Client := nat.
Definition Session := nat.
Definition Signer := string.

(** ** Package [internal/node] *)
Module node.

(** Modelled from the spec: the declarations of [node.OVHConfig],
    [node.CreateRequest], [node.Node] and [node.BillingType] are not part
    of the source file; the fields are the ones [main] reads and writes,
    and the address list is a list of printable addresses. *)
Record OVHConfig := mkOVHConfig {
  AppKey : string;
  AppSecret : string;
  ConsumerKey : string;
  ProjectID : string
}.

Inductive BillingType := Hourly | Monthly.

Record CreateRequest := mkCreateRequest {
  User : string;
  Name : string;
  Region : string;
  SKU : string;
  SSHKey : string;
  Billing : BillingType
}.

Record Networks := mkNetworks {
  V4 : list string;
  V6 : list string
}.

Record Node := mkNode {
  ProviderID : string;
  Nets : Networks
}.

(** A driver value; [DefaultUser] is the answer of its method of that name. *)
Record Driver := mkDriver {
  DefaultUser : string
}.

End node.

(** ** Package [ssh] and [time] *)
Module time.
Definition Nanosecond : Z := 1.
Definition Microsecond : Z := 1000 * Nanosecond.
Definition Millisecond : Z := 1000 * Microsecond.
Definition Second : Z := 1000 * Millisecond.
Definition Minute : Z := 60 * Second.
End time.

Module ssh.
Inductive AuthMethod := PublicKeys (signer : Signer).
Inductive HostKeyCallback := InsecureIgnoreHostKey.
Record ClientConfig := mkClientConfig {
  User : string;
  Auth : list AuthMethod;
  HostKey : HostKeyCallback;
  Timeout : Z
}.
End ssh.

(** ** The configuration record of [main.go] *)
Record cfg := mkCfg {
  IdentityFile : string;
  OVHConfig : node.OVHConfig;
  STKUsername : string;
  STKPassword : string
}.

(** ** Streams *)
Inductive Writer := OsStdout | OsStderr | SessionStdin (s : Session).
Inductive Reader := SessionStdout (s : Session) | SessionStderr (s : Session).

(** A goroutine started by a [go] statement: only [copy] is ever started. *)
Inductive goroutine := GoCopy (w : Writer) (r : Reader).

(** A call postponed by [defer]: only [session.Close()] is ever deferred. *)
Inductive deferred_call := DeferClose (s : Session).

(** ** Trace events *)

(** An operand of a logging call. *)
Inductive arg :=
| AStr (s : string)
| AErr (e : error)
| APath                              (* the [*string] returned by [flag.String] *)
| AReq (req : node.CreateRequest).

Inductive event :=
| EvPrintln (args : list arg)
| EvPrintf (format : string) (args : list arg)
| EvFatalln (args : list arg)
| EvOpen (name : string) (r : result File)
| EvReadAll (f : File) (r : result string)
| EvUnmarshal (data : string) (r : result cfg)
| EvReadFile (name : string) (r : result string)
| EvNewOVHDriver (region appKey appSecret consumerKey projectID : string)
                 (r : result node.Driver)
| EvCreate (req : node.CreateRequest) (latency : Z) (r : result node.Node)
| EvSleep (d : Z)
| EvParsePrivateKey (pem : string) (r : result Signer)
| EvDial (network addr : string) (config : ssh.ClientConfig) (r : result Client)
| EvNewSession (c : Client) (r : result Session)
| EvStdinPipe (s : Session) (r : result Writer)
| EvStderrPipe (s : Session) (r : result Reader)
| EvStdoutPipe (s : Session) (r : result Reader)
| EvGo (g : goroutine)
| EvShell (s : Session) (r : option error)
| EvWrite (w : Writer) (p : string) (r : option (nat * error))
| EvWait (s : Session) (r : option error)
| EvClose (s : Session)
| EvCopy (w : Writer) (r : Reader) (res : result Z).

(** ** The environment: the answers of the outside world *)
Record Env := mkEnv {
  flag_path : string;
  os_Open : string -> result File;
  ioutil_ReadAll : File -> result string;
  json_Unmarshal : string -> result cfg;
  ioutil_ReadFile : string -> result string;
  node_NewOVHDriver : string -> string -> string -> string -> string ->
                      result node.Driver;
  (* how long [Create] blocks, and what it returns *)
  driver_Create : node.Driver -> node.CreateRequest -> Z * result node.Node;
  ssh_ParsePrivateKey : string -> result Signer;
  ssh_Dial : string -> string -> ssh.ClientConfig -> result Client;
  conn_NewSession : Client -> result Session;
  session_StdinPipe : Session -> option error;
  session_StderrPipe : Session -> option error;
  session_StdoutPipe : Session -> option error;
  session_Shell : Session -> option error;
  (* the k-th [Write] on a writer: [None] when the whole buffer is accepted,
     [Some (n, e)] when it fails with [e] after [n] bytes *)
  writer_Write : Writer -> nat -> string -> option (nat * error);
  session_Wait : Session -> option error;
  io_Copy : Writer -> Reader -> result Z
}.

(** ** Machine state and the execution monad *)
Record state := mkState {
  trace : list event;               (* calls made so far, oldest first *)
  deferred : list deferred_call;    (* pending deferred calls, newest first *)
  written : list (Writer * string)  (* bytes each writer accepted, per Write, oldest first *)
}.

Definition init_state : state := mkState [] [] [].

(** The value carried by a run-time panic. *)
Inductive panic_value :=
| IndexOutOfRange (i len : nat).

(** How a computation ends: with a value, inside [os.Exit], or panicking. *)
Inductive outcome (A : Type) : Type :=
| Val (a : A)
| Exit (code : Z)
| Panic (v : panic_value).
Arguments Val {A} a.
Arguments Exit {A} code.
Arguments Panic {A} v.

Definition M (A : Type) : Type := state -> outcome A * state.

Definition ret {A} (a : A) : M A := fun s => (Val a, s).

Definition bind {A B} (m : M A) (f : A -> M B) : M B :=
  fun s =>
    match m s with
    | (Val a, s') => f a s'
    | (Exit c, s') => (Exit c, s')
    | (Panic p, s') => (Panic p, s')
    end.

Declare Scope go_scope.
Delimit Scope go_scope with go.
Notation "x <- m ;; k" := (bind m (fun x => k))
  (at level 61, m at next level, right associativity) : go_scope.
Notation "m ;; k" := (bind m (fun _ => k))
  (at level 61, right associativity) : go_scope.
(** [v, err := call; if err != nil { handler }; rest] *)
Notation "'try' x <- m 'or' e => h ;; k" :=
  (bind m (fun r => match r with Ok x => k | Err e => h end))
  (at level 61, x name, e name, m at next level, h at next level,
   right associativity) : go_scope.
(** [if err := call; err != nil { handler }; rest] *)
Notation "'check' m 'or' e => h ;; k" :=
  (bind m (fun r => match r with None => k | Some e => h end))
  (at level 61, e name, m at next level, h at next level,
   right associativity) : go_scope.
Open Scope go_scope.

Definition emit (e : event) : M unit :=
  fun s => (Val tt, mkState (trace s ++ [e]) (deferred s) (written s)).

Definition exit {A} (code : Z) : M A := fun s => (Exit code, s).

Definition panic {A} (v : panic_value) : M A := fun s => (Panic v, s).

Definition defer (d : deferred_call) : M unit :=
  fun s => (Val tt, mkState (trace s) (d :: deferred s) (written s)).

(** ** Package [strings], [bytes] and [fmt] *)
Module strings.
(** [strings.Join(elems, sep)] *)
Fixpoint Join (elems : list string) (sep : string) : string :=
  match elems with
  | [] => ""
  | [x] => x
  | x :: rest => x ++ sep ++ Join rest sep
  end.
End strings.

Module bytes.
Fixpoint mem (c : ascii) (cutset : string) : bool :=
  match cutset with
  | EmptyString => false
  | String d rest => if Ascii.eqb c d then true else mem c rest
  end.

Fixpoint TrimLeft (s cutset : string) : string :=
  match s with
  | EmptyString => EmptyString
  | String c rest => if mem c cutset then TrimLeft rest cutset else s
  end.

Definition reverse (s : string) : string :=
  string_of_list_ascii (rev (list_ascii_of_string s)).

Definition TrimRight (s cutset : string) : string :=
  reverse (TrimLeft (reverse s) cutset).

(** [bytes.Trim(s, cutset)]: all leading and trailing bytes of [cutset] removed. *)
Definition Trim (s cutset : string) : string :=
  TrimRight (TrimLeft s cutset) cutset.
End bytes.

Definition CR : string := String "013" "".
Definition LF : string := String "010" "".
Definition TAB : string := String "009" "".

(** [s[i]] on a slice: a run-time panic when [i] is out of range. *)
Definition index (l : list string) (i : nat) : M string :=
  match nth_error l i with
  | Some x => ret x
  | None => panic (IndexOutOfRange i (List.length l))
  end.

(** The bytes of buffer [p] that a [Write] answering [r] took. *)
Definition accepted (p : string) (r : option (nat * error)) : string :=
  match r with
  | None => p
  | Some (n, _) => substring 0 n p
  end.

(** Equality of writers. *)
Definition Writer_eqb (a b : Writer) : bool :=
  match a, b with
  | OsStdout, OsStdout => true
  | OsStderr, OsStderr => true
  | SessionStdin s, SessionStdin t => Nat.eqb s t
  | _, _ => false
  end.

(** The writers that are the input pipe of a session. *)
Definition is_session_stdin (w : Writer) : bool :=
  match w with SessionStdin _ => true | _ => false end.

(** The chunks that writer [w] accepted, among the chunks [ws] of all writers. *)
Definition chunks_for (w : Writer) (ws : list (Writer * string)) : list string :=
  map snd (filter (fun x => Writer_eqb (fst x) w) ws).

(** The chunks accepted by the input pipe of a session. *)
Definition session_chunks (ws : list (Writer * string)) : list string :=
  map snd (filter (fun x => is_session_stdin (fst x)) ws).

(** What writer [w] holds in state [s], one chunk per [Write]. *)
Definition chunks_of (w : Writer) (s : state) : list string :=
  chunks_for w (written s).

(** What the input pipes of sessions hold in state [s]; the local writers
    are left out. *)
Definition stdin_chunks (s : state) : list string :=
  session_chunks (written s).

(** How the process ends. *)
Inductive termination :=
| Returned                        (* [main] returned *)
| Exited (code : Z)               (* [os.Exit(code)] *)
| Crashed (v : panic_value).      (* an unrecovered panic *)

Definition exit_status (t : termination) : Z :=
  match t with
  | Returned => 0
  | Exited code => code
  | Crashed _ => 2
  end.




Section Program.

Variable env : Env.

(** *** Package [log] *)
Definition log_Println (args : list arg) : M unit := emit (EvPrintln args).

Definition log_Printf (format : string) (args : list arg) : M unit :=
  emit (EvPrintf format args).

(** [log.Fatalln] prints and then calls [os.Exit(1)]. *)
Definition log_Fatalln {A} (args : list arg) : M A :=
  emit (EvFatalln args) ;; exit 1.

(** *** External calls, each recorded with its answer *)
Definition call {A} (answer : A) (ev : A -> event) : M A :=
  emit (ev answer) ;; ret answer.

Definition Open (name : string) : M (result File) :=
  call (os_Open env name) (EvOpen name).

Definition ReadAll (f : File) : M (result string) :=
  call (ioutil_ReadAll env f) (EvReadAll f).

Definition Unmarshal (data : string) : M (result cfg) :=
  call (json_Unmarshal env data) (EvUnmarshal data).

Definition ReadFile (name : string) : M (result string) :=
  call (ioutil_ReadFile env name) (EvReadFile name).

Definition NewOVHDriver (region k s c p : string) : M (result node.Driver) :=
  call (node_NewOVHDriver env region k s c p) (EvNewOVHDriver region k s c p).

Definition Create (d : node.Driver) (req : node.CreateRequest)
  : M (result node.Node) :=
  let answer := driver_Create env d req in
  call (snd answer) (EvCreate req (fst answer)).

Definition Sleep (d : Z) : M unit := emit (EvSleep d).

Definition ParsePrivateKey (pem : string) : M (result Signer) :=
  call (ssh_ParsePrivateKey env pem) (EvParsePrivateKey pem).

Definition Dial (network addr : string) (config : ssh.ClientConfig)
  : M (result Client) :=
  call (ssh_Dial env network addr config) (EvDial network addr config).

Definition NewSession (c : Client) : M (result Session) :=
  call (conn_NewSession env c) (EvNewSession c).

Definition StdinPipe (s : Session) : M (result Writer) :=
  call (match session_StdinPipe env s with
        | None => Ok (SessionStdin s)
        | Some err => Err err
        end) (EvStdinPipe s).

Definition StderrPipe (s : Session) : M (result Reader) :=
  call (match session_StderrPipe env s with
        | None => Ok (SessionStderr s)
        | Some err => Err err
        end) (EvStderrPipe s).

Definition StdoutPipe (s : Session) : M (result Reader) :=
  call (match session_StdoutPipe env s with
        | None => Ok (SessionStdout s)
        | Some err => Err err
        end) (EvStdoutPipe s).

Definition Shell (s : Session) : M (option error) :=
  call (session_Shell env s) (EvShell s).

Definition Wait (s : Session) : M (option error) :=
  call (session_Wait env s) (EvWait s).

Definition Close (s : Session) : M unit := emit (EvClose s).

Definition Copy (w : Writer) (r : Reader) : M (result Z) :=
  call (io_Copy env w r) (EvCopy w r).

(** One [Write] on writer [w]: the answer is the one of the outside world for
    this writer and the number of writes it has seen; the writer, and no
    other, keeps the bytes it accepted, and a failed write may have accepted
    a prefix of the buffer. *)
Definition Write (w : Writer) (p : string) : M (nat * option error) :=
  fun s =>
    let r := writer_Write env w (List.length (chunks_of w s)) p in
    (Val (String.length (accepted p r), option_map snd r),
     mkState (trace s ++ [EvWrite w p r]) (deferred s)
             (written s ++ [(w, accepted p r)])).

(** [fmt.Fprintf(w, "%s\n", x)]: one [Write] of the formatted bytes. *)
Definition Fprintf_s_nl (w : Writer) (x : string) : M (nat * option error) :=
  Write w (x ++ LF).

(** [fmt.Sprintf("%s:22", x)] and the like. *)
Definition Sprintf_s (pre x post : string) : string := pre ++ x ++ post.

Definition go (g : goroutine) : M unit := emit (EvGo g).

(** *** The closure [copy] of [main] (lines 129-133) *)
Definition copy (w : Writer) (r : Reader) : M unit :=
  res <- Copy w r ;;
  match res with
  | Err err => log_Printf ("error while copying: %s" ++ LF) [AErr err]
  | Ok _ => ret tt
  end.

(** *** The command list of [main] (lines 140-180) *)
Definition cmds (config : cfg) : list (list string) :=
  [ ["sudo"; "apt-get"; "-y"; "update"];
    ["sudo"; "apt-get"; "-y"; "upgrade"];
    ["sudo"; "apt-get"; "-y"; "install";
     "build-essential";
     "subversion";
     "cmake";
     "libbluetooth-dev";
     "libsdl2-dev";
     "libcurl4-openssl-dev";
     "libenet-dev";
     "libfreetype6-dev";
     "libharfbuzz-dev";
     "libjpeg-dev";
     "libogg-dev";
     "libopenal-dev";
     "libpng-dev";
     "libssl-dev";
     "libvorbis-dev";
     "nettle-dev";
     "pkg-config";
     "zlib1g-dev"];
    ["mkdir"; "stk"];
    ["cd"; "stk"];
    ["git"; "clone"; "https://github.com/supertuxkart/stk-code"; "stk-code"];
    ["svn"; "co"; "https://svn.code.sf.net/p/supertuxkart/code/stk-assets"; "stk-assets"];
    ["cd"; "stk-code"];
    ["mkdir"; "cmake_build"];
    ["cd"; "cmake_build"];
    ["cmake"; ".."; "-DSERVER_ONLY=ON"];
    ["sudo"; "make"; "install"];
    ["supertuxkart"; "--init-user";
     Sprintf_s "--login=" (STKUsername config) "";
     Sprintf_s "--password=" (STKPassword config) ""];
    ["wget";
     "https://gist.githubusercontent.com/jbpratt/e31529a43e274cb5b1af3234169a98c4/raw/bc9cb9d743be44b748aeaf0cf89ed915751669d1/stk-conf";
     "-O"; "$HOME/.config/supertuxkart/config-0.10/server_config.xml"];
    ["sudo"; "ufw"; "allow"; "2759"] ].

(** *** The loop of [main] (lines 187-194) *)
Fixpoint send_cmds (stdin : Writer) (cmds : list (list string)) : M unit :=
  match cmds with
  | [] => ret tt
  | cmd :: rest =>
      let cmdstr := strings.Join cmd " " in
      log_Printf ("+ %q" ++ LF) [AStr cmdstr] ;;
      r <- Fprintf_s_nl stdin cmdstr ;;
      match snd r with
      | Some err => log_Fatalln [AStr "failed to write command: %w"; AErr err]
      | None => send_cmds stdin rest
      end
  end.

(** *** [main] *)
Definition main : M unit :=
  let cfgPath := flag_path env in
  try file <- Open cfgPath
    or err => log_Fatalln [AStr "failed to open cfg file:"; APath; AErr err] ;;
  try contents <- ReadAll file
    or err => log_Fatalln [AStr "failed to read cfg file:"; AErr err] ;;
  try config <- Unmarshal contents
    or err => log_Fatalln [AStr "failed to unmarshal cfg contents:"; AErr err] ;;
  try d <- ReadFile (IdentityFile config ++ ".pub")
    or err => log_Fatalln [AStr "error reading ssh public key"; AErr err] ;;
  let pubkey := bytes.Trim d (CR ++ LF ++ TAB ++ " ") in
  try driver <- NewOVHDriver "CA"
                  (node.AppKey (OVHConfig config))
                  (node.AppSecret (OVHConfig config))
                  (node.ConsumerKey (OVHConfig config))
                  (node.ProjectID (OVHConfig config))
    or err => log_Fatalln [AErr err] ;;
  let req := node.mkCreateRequest (node.DefaultUser driver) "stk-memes"
               "BHS5" "B2-15" pubkey node.Hourly in
  log_Println [AStr "creating node"] ;;
  try n <- Create driver req
    or err => log_Fatalln [AReq req; AErr err] ;;
  log_Println [AStr "node created"] ;;
  log_Println [AStr "sleeping for node creation"] ;;
  Sleep (1 * time.Minute) ;;
  try privkey <- ReadFile (IdentityFile config)
    or err => log_Fatalln [AStr "failed to read priv key: %w"; AErr err] ;;
  try signer <- ParsePrivateKey privkey
    or err => log_Fatalln [AStr "failed to parse private key: %w"; AErr err] ;;
  let conf := ssh.mkClientConfig (node.DefaultUser driver)
                [ssh.PublicKeys signer] ssh.InsecureIgnoreHostKey
                (10 * time.Second) in
  log_Println [AStr "sshing to the server"] ;;
  v4 <- index (node.V4 (node.Nets n)) 0 ;;
  try conn <- Dial "tcp" (Sprintf_s "" v4 ":22") conf
    or err => log_Fatalln [AStr "failed to dial node: %w"; AErr err] ;;
  try session <- NewSession conn
    or err => log_Fatalln [AStr "failed to create ssh session: %w"; AErr err] ;;
  defer (DeferClose session) ;;
  try stdin <- StdinPipe session
    or err => log_Fatalln [AStr "failed to create stdin: %w"; AErr err] ;;
  try stderr <- StderrPipe session
    or err => log_Fatalln [AStr "failed to create stderr: %w"; AErr err] ;;
  try stdout <- StdoutPipe session
    or err => log_Fatalln [AStr "failed to create stdout: %w"; AErr err] ;;
  go (GoCopy OsStderr stderr) ;;
  go (GoCopy OsStdout stdout) ;;
  log_Println [AStr "connected.. running commands"] ;;
  check Shell session
    or err => log_Fatalln [AStr "failed to start ssh shell: %w"; AErr err] ;;
  send_cmds stdin (cmds config) ;;
  check Wait session
    or err => log_Fatalln [AErr err] ;;
  ret tt.

(** *** Leaving [main] *)

(** The deferred calls run newest first. *)
Fixpoint run_deferred (ds : list deferred_call) : M unit :=
  match ds with
  | [] => ret tt
  | DeferClose s :: rest => Close s ;; run_deferred rest
  end.

Definition unwind (s : state) : state :=
  snd (run_deferred (deferred s) (mkState (trace s) [] (written s))).

(** The main goroutine from start to the end of the process: deferred
    calls run when [main] returns or panics, not when it calls [os.Exit]. *)
Definition run_main : termination * state :=
  match main init_state with
  | (Val _, s) => (Returned, unwind s)
  | (Panic v, s) => (Crashed v, unwind s)
  | (Exit code, s) => (Exited code, s)
  end.

(** *** Goroutines *)





End Program.


(** ** Observations on traces *)

Definition is_create (e : event) : bool :=
  match e with EvCreate _ _ _ => true | _ => false end.
Definition is_created (e : event) : bool :=
  match e with EvCreate _ _ (Ok _) => true | _ => false end.
Definition is_create_failed (e : event) : bool :=
  match e with EvCreate _ _ (Err _) => true | _ => false end.
Definition is_sleep (e : event) : bool :=
  match e with EvSleep _ => true | _ => false end.
Definition is_dial (e : event) : bool :=
  match e with EvDial _ _ _ _ => true | _ => false end.
Definition is_new_session (e : event) : bool :=
  match e with EvNewSession _ _ => true | _ => false end.
Definition is_session_created (e : event) : bool :=
  match e with EvNewSession _ (Ok _) => true | _ => false end.
Definition is_shell_started (e : event) : bool :=
  match e with EvShell _ None => true | _ => false end.
Definition is_write (e : event) : bool :=
  match e with EvWrite _ _ _ => true | _ => false end.
Definition is_write_failed (e : event) : bool :=
  match e with EvWrite _ _ (Some _) => true | _ => false end.
Definition is_wait (e : event) : bool :=
  match e with EvWait _ _ => true | _ => false end.
Definition is_close (e : event) : bool :=
  match e with EvClose _ => true | _ => false end.
Definition is_key_parsed (e : event) : bool :=
  match e with EvParsePrivateKey _ (Ok _) => true | _ => false end.
Definition is_key_error (e : event) : bool :=
  match e with
  | EvReadFile _ (Err _) => true
  | EvParsePrivateKey _ (Err _) => true
  | _ => false
  end.

(** [occurs p tr]: some call of [tr] satisfies [p]. *)
Definition occurs (p : event -> bool) (tr : list event) : bool := existsb p tr.

(** [count p tr]: how many calls of [tr] satisfy [p]. *)
Definition count (p : event -> bool) (tr : list event) : nat :=
  List.length (filter p tr).

(** The bytes the session's input stream has received. *)
Definition stdin_bytes (s : state) : string := String.concat "" (stdin_chunks s).

(** The bytes writer [w] has received. *)
Definition bytes_of (w : Writer) (s : state) : string :=
  String.concat "" (chunks_of w s).

(** The line transmitted for one command. *)
Definition line (cmd : list string) : string := strings.Join cmd " " ++ LF.


(** The calls a successful or failed transmission of one command leaves. *)
Definition sent (w : Writer) (cmd : list string) (r : option (nat * error))
  : list event :=
  [EvPrintf ("+ %q" ++ LF) [AStr (strings.Join cmd " ")]; EvWrite w (line cmd) r].

(** The calls made before the first call satisfying [p]. *)
Fixpoint before (p : event -> bool) (tr : list event) : list event :=
  match tr with
  | [] => []
  | e :: tr' => if p e then [] else e :: before p tr'
  end.

(** The calls made after the first call satisfying [p]. *)
Fixpoint after (p : event -> bool) (tr : list event) : list event :=
  match tr with
  | [] => []
  | e :: tr' => if p e then tr' else after p tr'
  end.

(** The configuration the run decoded. *)
Fixpoint config_of (tr : list event) : option cfg :=
  match tr with
  | [] => None
  | EvUnmarshal _ (Ok c) :: _ => Some c
  | _ :: tr' => config_of tr'
  end.

(** The node the provider acknowledged. *)
Fixpoint created_node (tr : list event) : option node.Node :=
  match tr with
  | [] => None
  | EvCreate _ _ (Ok n) :: _ => Some n
  | _ :: tr' => created_node tr'
  end.

(** Network and address of every connection attempt, in order. *)
Fixpoint dial_targets (tr : list event) : list (string * string) :=
  match tr with
  | [] => []
  | EvDial network addr _ _ :: tr' => (network, addr) :: dial_targets tr'
  | _ :: tr' => dial_targets tr'
  end.

(** Buffer and answer of every [Write], in order. *)
Fixpoint writes (tr : list event) : list (string * option (nat * error)) :=
  match tr with
  | [] => []
  | EvWrite _ p r :: tr' => (p, r) :: writes tr'
  | _ :: tr' => writes tr'
  end.

(** Total time spent inside [time.Sleep]. *)
Fixpoint slept (tr : list event) : Z :=
  match tr with
  | [] => 0
  | EvSleep d :: tr' => d + slept tr'
  | _ :: tr' => slept tr'
  end.

(** [extend s t chunks]: state [s] after the calls [t], the writers having
    taken [chunks]. *)
Definition extend (s : state) (t : list event)
           (chunks : list (Writer * string)) : state :=
  mkState (trace s ++ t) (deferred s) (written s ++ chunks).

(** Writer, buffer and answer of every [Write], in order. *)
Fixpoint sends (tr : list event)
  : list (Writer * string * option (nat * error)) :=
  match tr with
  | [] => []
  | EvWrite w p r :: tr' => (w, p, r) :: sends tr'
  | _ :: tr' => sends tr'
  end.

(** A write that went to writer [w]. *)
Definition sent_to (w : Writer) (x : Writer * string * option (nat * error))
  : Prop :=
  fst (fst x) = w.

(** ** Goroutines that cannot end the process *)



(** ** Sample worlds *)

Definition sample_cfg : cfg :=
  mkCfg "id_rsa" (node.mkOVHConfig "key" "secret" "consumer" "project")
        "player" "hunter2".

Definition sample_node : node.Node :=
  node.mkNode "n1" (node.mkNetworks ["10.0.0.1"; "10.0.0.2"] []).

Definition sample_request : node.CreateRequest :=
  node.mkCreateRequest "ubuntu" "stk-memes" "BHS5" "B2-15"
                       "key material of id_rsa.pub" node.Hourly.

(** A world in which the configuration is [sample_cfg], the driver logs in
    as [ubuntu], the connection and the session are granted, and the wait
    ends well; the remaining answers are the parameters ([write] is the
    answer of the input pipe of a session, the local writers accept
    everything). *)
Definition world (create : Z * result node.Node)
           (readfile : string -> result string)
           (parse : string -> result Signer)
           (shell : option error)
           (write : nat -> string -> option (nat * error))
           (copy : Writer -> Reader -> result Z) : Env :=
  {| flag_path := "cfg.json";
     os_Open := fun _ => Ok 3%nat;
     ioutil_ReadAll := fun _ => Ok "{}";
     json_Unmarshal := fun _ => Ok sample_cfg;
     ioutil_ReadFile := readfile;
     node_NewOVHDriver := fun _ _ _ _ _ => Ok (node.mkDriver "ubuntu");
     driver_Create := fun _ _ => create;
     ssh_ParsePrivateKey := parse;
     ssh_Dial := fun _ _ _ => Ok 1%nat;
     conn_NewSession := fun _ => Ok 7%nat;
     session_StdinPipe := fun _ => None;
     session_StderrPipe := fun _ => None;
     session_StdoutPipe := fun _ => None;
     session_Shell := fun _ => shell;
     writer_Write := fun w => match w with
                              | SessionStdin _ => write
                              | _ => fun _ _ => None
                              end;
     session_Wait := fun _ => None;
     io_Copy := copy |}.

Definition key_files (name : string) : result string :=
  Ok (LF ++ "key material of " ++ name ++ LF).

(** Everything goes well. *)
Definition world_ok : Env :=
  world (5%Z, Ok sample_node) key_files (fun pem => Ok pem) None
        (fun _ _ => None) (fun _ _ => Ok 0%Z).

(** The provider refuses the node. *)
Definition world_quota : Env :=
  world (3%Z, Err "quota exceeded") key_files (fun pem => Ok pem) None
        (fun _ _ => None) (fun _ _ => Ok 0%Z).

(** The private key file cannot be read; the public one can. *)
Definition world_no_private_key : Env :=
  world (5%Z, Ok sample_node)
        (fun name => if (name =? "id_rsa")%string then Err "no such file"
                     else key_files name)
        (fun pem => Ok pem) None (fun _ _ => None) (fun _ _ => Ok 0%Z).

(** The created node reports no IPv4 address. *)
Definition world_no_address : Env :=
  world (5%Z, Ok (node.mkNode "n1" (node.mkNetworks [] []))) key_files
        (fun pem => Ok pem) None (fun _ _ => None) (fun _ _ => Ok 0%Z).

(** The session is granted but the shell is refused. *)
Definition world_no_shell : Env :=
  world (5%Z, Ok sample_node) key_files (fun pem => Ok pem)
        (Some "ssh: could not start shell") (fun _ _ => None)
        (fun _ _ => Ok 0%Z).

(** The third write breaks after three bytes. *)
Definition world_broken_pipe : Env :=
  world (5%Z, Ok sample_node) key_files (fun pem => Ok pem) None
        (fun k _ => if (k =? 2)%nat then Some (3%nat, "broken pipe") else None)
        (fun _ _ => Ok 0%Z).


(** The reading of C3 that the code does not satisfy: a key error is
    reported before any remote action, the node-creation request included. *)
Definition reported_before_any_remote_action (env : Env) : Prop :=
  let tr := trace (snd (run_main env)) in
  occurs is_key_error tr = true ->
  fst (run_main env) = Exited 1
  /\ occurs is_create tr = false
  /\ occurs is_dial tr = false
  /\ occurs is_write tr = false.

(** ** Further observations on traces *)

(** A call of the main goroutine that answered with an error. *)
Definition is_failure (e : event) : bool :=
  match e with
  | EvOpen _ (Err _) => true
  | EvReadAll _ (Err _) => true
  | EvUnmarshal _ (Err _) => true
  | EvReadFile _ (Err _) => true
  | EvNewOVHDriver _ _ _ _ _ (Err _) => true
  | EvCreate _ _ (Err _) => true
  | EvParsePrivateKey _ (Err _) => true
  | EvDial _ _ _ (Err _) => true
  | EvNewSession _ (Err _) => true
  | EvStdinPipe _ (Err _) => true
  | EvStderrPipe _ (Err _) => true
  | EvStdoutPipe _ (Err _) => true
  | EvShell _ (Some _) => true
  | EvWrite _ _ (Some _) => true
  | EvWait _ (Some _) => true
  | _ => false
  end.

Definition is_fatalln (e : event) : bool :=
  match e with EvFatalln _ => true | _ => false end.

(** The configuration file could not be opened, read or decoded. *)
Definition is_cfg_error (e : event) : bool :=
  match e with
  | EvOpen _ (Err _) => true
  | EvReadAll _ (Err _) => true
  | EvUnmarshal _ (Err _) => true
  | _ => false
  end.

Definition is_read_file (e : event) : bool :=
  match e with EvReadFile _ _ => true | _ => false end.
Definition is_new_driver (e : event) : bool :=
  match e with EvNewOVHDriver _ _ _ _ _ _ => true | _ => false end.
Definition is_driver_failed (e : event) : bool :=
  match e with EvNewOVHDriver _ _ _ _ _ (Err _) => true | _ => false end.
Definition is_driver_ok (e : event) : bool :=
  match e with EvNewOVHDriver _ _ _ _ _ (Ok _) => true | _ => false end.
Definition is_read_ok (e : event) : bool :=
  match e with EvReadFile _ (Ok _) => true | _ => false end.
Definition is_dial_ok (e : event) : bool :=
  match e with EvDial _ _ _ (Ok _) => true | _ => false end.
Definition is_pipe (e : event) : bool :=
  match e with
  | EvStdinPipe _ _ => true
  | EvStderrPipe _ _ => true
  | EvStdoutPipe _ _ => true
  | _ => false
  end.
Definition is_go (e : event) : bool :=
  match e with EvGo _ => true | _ => false end.
Definition is_shell (e : event) : bool :=
  match e with EvShell _ _ => true | _ => false end.
Definition is_wait_ok (e : event) : bool :=
  match e with EvWait _ None => true | _ => false end.
Definition is_wait_failed (e : event) : bool :=
  match e with EvWait _ (Some _) => true | _ => false end.

(** ** Observations on strings *)

(** Every byte of [s] belongs to [cutset]. *)
Fixpoint all_in (cutset s : string) : bool :=
  match s with
  | EmptyString => true
  | String c rest => bytes.mem c cutset && all_in cutset rest
  end.

(** The first byte of [s] belongs to [cutset]. *)
Definition head_in (cutset s : string) : bool :=
  match s with
  | EmptyString => false
  | String c _ => bytes.mem c cutset
  end.

(** The last byte of [s] belongs to [cutset]. *)
Definition last_in (cutset s : string) : bool :=
  head_in cutset (bytes.reverse s).

(** The cutset of [main]: carriage return, line feed, tab and space. *)
Definition whitespace : string := CR ++ LF ++ TAB ++ " ".

(** ** Observations on process traces *)




(** ** Further sample worlds *)

(** [world_ok] with other answers for opening the configuration file,
    building the driver and waiting on the session. *)
Definition world_with (open : string -> result File)
           (driver : result node.Driver) (wait : option error) : Env :=
  {| flag_path := flag_path world_ok;
     os_Open := open;
     ioutil_ReadAll := ioutil_ReadAll world_ok;
     json_Unmarshal := json_Unmarshal world_ok;
     ioutil_ReadFile := ioutil_ReadFile world_ok;
     node_NewOVHDriver := fun _ _ _ _ _ => driver;
     driver_Create := driver_Create world_ok;
     ssh_ParsePrivateKey := ssh_ParsePrivateKey world_ok;
     ssh_Dial := ssh_Dial world_ok;
     conn_NewSession := conn_NewSession world_ok;
     session_StdinPipe := session_StdinPipe world_ok;
     session_StderrPipe := session_StderrPipe world_ok;
     session_StdoutPipe := session_StdoutPipe world_ok;
     session_Shell := session_Shell world_ok;
     writer_Write := writer_Write world_ok;
     session_Wait := fun _ => wait;
     io_Copy := io_Copy world_ok |}.

(** The configuration file is missing. *)
Definition world_no_config : Env :=
  world_with (fun _ => Err "no such file") (Ok (node.mkDriver "ubuntu")) None.

(** The provider rejects the credentials when the driver is built. *)
Definition world_no_driver : Env :=
  world_with (fun _ => Ok 3%nat) (Err "invalid application key") None.

(** The remote shell ends with an error. *)
Definition world_wait_fails : Env :=
  world_with (fun _ => Ok 3%nat) (Ok (node.mkDriver "ubuntu"))
             (Some "Process exited with status 1").

(** The client configuration of [world_ok]. *)
Definition sample_conf : ssh.ClientConfig :=
  ssh.mkClientConfig "ubuntu"
    [ssh.PublicKeys (LF ++ "key material of id_rsa" ++ LF)]
    ssh.InsecureIgnoreHostKey (10 * time.Second).

(** ** The transmission loop *)

Lemma Writer_eqb_refl (a : Writer) : Writer_eqb a a = true.
Proof. destruct a; cbn; auto using Nat.eqb_refl. Qed.

Lemma chunks_for_app w (a b : list (Writer * string)) :
  chunks_for w (a ++ b) = (chunks_for w a ++ chunks_for w b)%list.
Proof. unfold chunks_for. now rewrite filter_app, map_app. Qed.

Lemma chunks_for_own {A} w (f : A -> string) (L : list A) :
  chunks_for w (map (fun c => (w, f c)) L) = map f L.
Proof.
  unfold chunks_for. induction L as [|c L IH]; [reflexivity|].
  cbn. rewrite Writer_eqb_refl. cbn. now f_equal.
Qed.

Lemma session_chunks_app (a b : list (Writer * string)) :
  session_chunks (a ++ b) = (session_chunks a ++ session_chunks b)%list.
Proof. unfold session_chunks. now rewrite filter_app, map_app. Qed.

Lemma session_chunks_own {A} sess (f : A -> string) (L : list A) :
  session_chunks (map (fun c => (SessionStdin sess, f c)) L) = map f L.
Proof.
  unfold session_chunks. induction L as [|c L IH]; [reflexivity|].
  cbn. now f_equal.
Qed.

Section Loop.

Variable env : Env.
Variable w : Writer.

Lemma extend_nil s : extend s [] [] = s.
Proof. destruct s; unfold extend; cbn. now rewrite !app_nil_r. Qed.

Lemma extend_extend s t1 c1 t2 c2 :
  extend (extend s t1 c1) t2 c2 = extend s (t1 ++ t2) (c1 ++ c2).
Proof. unfold extend; cbn. now rewrite <- !app_assoc. Qed.

(** After one more chunk, the writer has seen one more write. *)
Lemma length_chunks_of_step s t x :
  List.length (chunks_of w (extend s t [(w, x)]))
  = S (List.length (chunks_of w s)).
Proof.
  unfold chunks_of, extend; cbn [written].
  rewrite chunks_for_app, length_app. unfold chunks_for at 2; cbn.
  rewrite Writer_eqb_refl. cbn. lia.
Qed.

(** One turn of the loop whose write is accepted. *)
Lemma send_cmds_step_ok cmd rest s :
  writer_Write env w (List.length (chunks_of w s)) (line cmd) = None ->
  send_cmds env w (cmd :: rest) s
  = send_cmds env w rest (extend s (sent w cmd None) [(w, line cmd)]).
Proof.
  intros H. cbn [send_cmds]. unfold bind, log_Printf, Fprintf_s_nl, Write, emit.
  cbn [trace deferred written]. fold (line cmd).
  change (chunks_of w {| trace := (trace s ++
            [EvPrintf ("+ %q" ++ LF) [AStr (strings.Join cmd " ")]])%list;
            deferred := deferred s; written := written s |})
    with (chunks_of w s).
  rewrite H. cbn.
  unfold extend, sent. cbn. now rewrite <- !app_assoc.
Qed.

(** One turn of the loop whose write fails. *)
Lemma send_cmds_step_fail cmd rest s n e :
  writer_Write env w (List.length (chunks_of w s)) (line cmd) = Some (n, e) ->
  send_cmds env w (cmd :: rest) s
  = (Exit 1,
     extend s (sent w cmd (Some (n, e))
               ++ [EvFatalln [AStr "failed to write command: %w"; AErr e]])
            [(w, substring 0 n (line cmd))]).
Proof.
  intros H. cbn [send_cmds].
  unfold bind, log_Printf, log_Fatalln, Fprintf_s_nl, Write, emit, exit, bind.
  cbn [trace deferred written]. fold (line cmd).
  change (chunks_of w {| trace := (trace s ++
            [EvPrintf ("+ %q" ++ LF) [AStr (strings.Join cmd " ")]])%list;
            deferred := deferred s; written := written s |})
    with (chunks_of w s).
  rewrite H. cbn.
  unfold extend, sent. cbn. now rewrite <- !app_assoc.
Qed.

(** Every write accepted: the loop ends normally, and the writer has taken
    the lines of the commands, one chunk per command, in order. *)
Lemma send_cmds_all_ok L : forall s,
  (forall i cmd, nth_error L i = Some cmd ->
     writer_Write env w (List.length (chunks_of w s) + i) (line cmd) = None) ->
  send_cmds env w L s
  = (Val tt, extend s (flat_map (fun c => sent w c None) L)
                    (map (fun c => (w, line c)) L)).
Proof.
  induction L as [|cmd rest IH]; intros s H.
  - cbn. now rewrite extend_nil.
  - rewrite send_cmds_step_ok.
    2: { specialize (H 0%nat cmd eq_refl). now rewrite Nat.add_0_r in H. }
    rewrite IH.
    + now rewrite extend_extend.
    + intros i c Hi. rewrite length_chunks_of_step.
      replace (S (List.length (chunks_of w s)) + i)%nat
        with (List.length (chunks_of w s) + S i)%nat by lia.
      now apply H.
Qed.

(** The write of command [i] is the first to fail: the loop exits with
    status 1 right there, the writer having taken the lines before [i] and
    what the failed write let through. *)
Lemma send_cmds_first_failure L : forall s i cmd n e,
  nth_error L i = Some cmd ->
  (forall j c, (j < i)%nat -> nth_error L j = Some c ->
     writer_Write env w (List.length (chunks_of w s) + j) (line c) = None) ->
  writer_Write env w (List.length (chunks_of w s) + i) (line cmd) = Some (n, e) ->
  send_cmds env w L s
  = (Exit 1,
     extend s (flat_map (fun c => sent w c None) (firstn i L)
               ++ sent w cmd (Some (n, e))
               ++ [EvFatalln [AStr "failed to write command: %w"; AErr e]])
            (map (fun c => (w, line c)) (firstn i L)
             ++ [(w, substring 0 n (line cmd))])).
Proof.
  induction L as [|c0 rest IH]; intros s i cmd n e Hi Hbefore Hfail.
  - destruct i; discriminate.
  - destruct i as [|i].
    + injection Hi as ->. rewrite Nat.add_0_r in Hfail.
      now rewrite (send_cmds_step_fail _ _ _ _ _ Hfail).
    + cbn in Hi. rewrite send_cmds_step_ok.
      2: { specialize (Hbefore 0%nat c0 (Nat.lt_0_succ _) eq_refl).
           now rewrite Nat.add_0_r in Hbefore. }
      rewrite (IH _ i cmd n e Hi).
      * rewrite extend_extend. cbn [firstn flat_map map]. now rewrite <- !app_assoc.
      * intros j c Hj Hc. rewrite length_chunks_of_step.
        replace (S (List.length (chunks_of w s)) + j)%nat
          with (List.length (chunks_of w s) + S j)%nat by lia.
        apply Hbefore; [lia | exact Hc].
      * rewrite length_chunks_of_step.
        replace (S (List.length (chunks_of w s)) + i)%nat
          with (List.length (chunks_of w s) + S i)%nat by lia.
        exact Hfail.
Qed.

(** The loop does one or the other. *)
Lemma send_cmds_cases L : forall s,
  send_cmds env w L s
  = (Val tt, extend s (flat_map (fun c => sent w c None) L)
                    (map (fun c => (w, line c)) L))
  \/ exists i cmd n e,
       nth_error L i = Some cmd
       /\ send_cmds env w L s
          = (Exit 1,
             extend s (flat_map (fun c => sent w c None) (firstn i L)
                       ++ sent w cmd (Some (n, e))
                       ++ [EvFatalln [AStr "failed to write command: %w"; AErr e]])
                    (map (fun c => (w, line c)) (firstn i L)
                     ++ [(w, substring 0 n (line cmd))])).
Proof.
  induction L as [|c0 rest IH]; intros s.
  - left. cbn. now rewrite extend_nil.
  - destruct (writer_Write env w (List.length (chunks_of w s)) (line c0))
      as [[n e]|] eqn:Hw.
    + right. exists 0%nat, c0, n, e. split; [reflexivity|].
      now rewrite (send_cmds_step_fail _ _ _ _ _ Hw).
    + rewrite (send_cmds_step_ok _ _ _ Hw).
      destruct (IH (extend s (sent w c0 None) [(w, line c0)]))
        as [-> | (i & cmd & n & e & Hi & ->)].
      * left. now rewrite extend_extend.
      * right. exists (S i), cmd, n, e. split; [exact Hi|].
        rewrite extend_extend. cbn [firstn flat_map map]. now rewrite <- !app_assoc.
Qed.

End Loop.

(** ** Running [main] symbolically *)

Lemma bind_unfold {A B} (m : M A) (f : A -> M B) s :
  bind m f s
  = match m s with
    | (Val a, s') => f a s'
    | (Exit c, s') => (Exit c, s')
    | (Panic p, s') => (Panic p, s')
    end.
Proof. reflexivity. Qed.

(** The calls of the loop are invisible to an observation that ignores
    [log.Printf] and [Write]. *)
Section LoopEvents.

Variable w : Writer.
Variable r : option (nat * error).
Variable p : event -> bool.
Hypothesis p_printf : forall f a, p (EvPrintf f a) = false.
Hypothesis p_write : forall w b r, p (EvWrite w b r) = false.

Lemma existsb_sent L t :
  existsb p (flat_map (fun c => sent w c r) L ++ t) = existsb p t.
Proof.
  induction L as [|c L IH]; [reflexivity|].
  cbn [flat_map sent app existsb]. now rewrite p_printf, p_write, IH.
Qed.

Lemma filter_sent L t :
  filter p (flat_map (fun c => sent w c r) L ++ t) = filter p t.
Proof.
  induction L as [|c L IH]; [reflexivity|].
  cbn [flat_map sent app filter]. now rewrite p_printf, p_write, IH.
Qed.

Lemma before_sent L t :
  before p (flat_map (fun c => sent w c r) L ++ t)
  = (flat_map (fun c => sent w c r) L ++ before p t)%list.
Proof.
  induction L as [|c L IH]; [reflexivity|].
  cbn [flat_map sent app before]. now rewrite p_printf, p_write, IH.
Qed.

Lemma after_sent L t :
  after p (flat_map (fun c => sent w c r) L ++ t) = after p t.
Proof.
  induction L as [|c L IH]; [reflexivity|].
  cbn [flat_map sent app after]. now rewrite p_printf, p_write, IH.
Qed.

End LoopEvents.

Lemma slept_sent w r L t :
  slept (flat_map (fun c => sent w c r) L ++ t) = slept t.
Proof. induction L as [|c L IH]; [reflexivity|]. exact IH. Qed.

Lemma dial_targets_sent w r L t :
  dial_targets (flat_map (fun c => sent w c r) L ++ t) = dial_targets t.
Proof. induction L as [|c L IH]; [reflexivity|]. exact IH. Qed.

Lemma writes_sent w r L t :
  writes (flat_map (fun c => sent w c r) L ++ t)
  = (map (fun c => (line c, r)) L ++ writes t)%list.
Proof.
  induction L as [|c L IH]; [reflexivity|].
  cbn [flat_map sent app writes map]. now rewrite IH.
Qed.

Lemma sends_sent w r L t :
  sends (flat_map (fun c => sent w c r) L ++ t)
  = (map (fun c => (w, line c, r)) L ++ sends t)%list.
Proof.
  induction L as [|c L IH]; [reflexivity|].
  cbn [flat_map sent app sends map]. now rewrite IH.
Qed.

(** Every write of an uninterrupted stretch of the loop goes to the loop's
    writer. *)
Lemma sends_to_writer w r (L : list (list string)) t :
  Forall (sent_to w) t ->
  Forall (sent_to w) (map (fun c => (w, line c, r)) L ++ t)%list.
Proof.
  intros Ht. apply Forall_app. split; [|exact Ht].
  apply Forall_forall. intros x Hx.
  apply in_map_iff in Hx. destruct Hx as (c & <- & _). reflexivity.
Qed.

Ltac exec_loop :=
  match goal with
  | |- context [bind (send_cmds ?e ?w ?L) ?k ?s] =>
      let i := fresh "i" in let cmd := fresh "cmd" in
      let n := fresh "n" in let err := fresh "err" in
      let Hi := fresh "Hi" in
      let L' := fresh "L" in let HL := fresh "HL" in
      rewrite (bind_unfold (send_cmds e w L) k s);
      remember L as L' eqn:HL;
      destruct (send_cmds_cases e w L' s) as [-> | (i & cmd & n & err & Hi & ->)]
  end.

Ltac case_on x :=
  lazymatch x with
  | match ?y with Some _ => _ | None => _ end => case_on y
  | match ?y with Ok _ => _ | Err _ => _ end => case_on y
  | _ => destruct x eqn:?
  end.

Ltac exec_step :=
  match goal with
  | |- context [bind (index ?l ?i) ?k ?s] =>
      rewrite (bind_unfold (index l i) k s); unfold index;
      destruct (nth_error l i) eqn:?
  | |- context [match ?x with Ok _ => _ | Err _ => _ end] => case_on x
  | |- context [match ?x with Some _ => _ | None => _ end] => case_on x
  end.

Ltac norm :=
  cbn -[send_cmds cmds bytes.Trim flat_map firstn Z.mul session_chunks chunks_for].

(** Split a statement about [run_main env] into one goal per path of [main]:
    the run and the property are named, the run is executed path by path,
    and both are put back. *)
Ltac exec :=
  cbv zeta;
  match goal with
  | |- context [run_main ?e] =>
      let r := fresh "r" in let Hr := fresh "Hr" in
      let P := fresh "P" in let HP := fresh "HP" in
      remember (run_main e) as r eqn:Hr;
      pattern r;
      match goal with
      | |- ?Q r => remember Q as P eqn:HP
      end;
      revert Hr;
      unfold run_main, main; norm;
      repeat (first [exec_loop | exec_step]; norm);
      intros ->; subst P; norm
  end.

(** Observations that do not look at the loop's calls. *)
Ltac skip_loop1 :=
  match goal with
  | |- context [existsb ?p (flat_map (fun c => sent ?w c ?r) ?L ++ ?t)] =>
      rewrite (existsb_sent w r p (fun _ _ => eq_refl) (fun _ _ _ => eq_refl) L t)
  | |- context [filter ?p (flat_map (fun c => sent ?w c ?r) ?L ++ ?t)] =>
      rewrite (filter_sent w r p (fun _ _ => eq_refl) (fun _ _ _ => eq_refl) L t)
  | |- context [before ?p (flat_map (fun c => sent ?w c ?r) ?L ++ ?t)] =>
      rewrite (before_sent w r p (fun _ _ => eq_refl) (fun _ _ _ => eq_refl) L t)
  | |- context [after ?p (flat_map (fun c => sent ?w c ?r) ?L ++ ?t)] =>
      rewrite (after_sent w r p (fun _ _ => eq_refl) (fun _ _ _ => eq_refl) L t)
  | |- context [slept (flat_map (fun c => sent ?w c ?r) ?L ++ ?t)] =>
      rewrite (slept_sent w r L t)
  | |- context [dial_targets (flat_map (fun c => sent ?w c ?r) ?L ++ ?t)] =>
      rewrite (dial_targets_sent w r L t)
  | |- context [writes (flat_map (fun c => sent ?w c ?r) ?L ++ ?t)] =>
      rewrite (writes_sent w r L t)
  | |- context [sends (flat_map (fun c => sent ?w c ?r) ?L ++ ?t)] =>
      rewrite (sends_sent w r L t)
  end.

Ltac skip_loop :=
  rewrite <- ?app_assoc; norm; repeat (skip_loop1; norm).

(** The same, every path closed by [tac] as a lemma of its own. *)
Ltac exec_by tac :=
  cbv zeta;
  match goal with
  | |- context [run_main ?e] =>
      let r := fresh "r" in let Hr := fresh "Hr" in
      let P := fresh "P" in let HP := fresh "HP" in
      remember (run_main e) as r eqn:Hr;
      pattern r;
      match goal with
      | |- ?Q r => remember Q as P eqn:HP
      end;
      revert Hr;
      unfold run_main, main; norm;
      repeat (first [exec_loop | exec_step]; norm);
      abstract (intros ->; subst P; norm; skip_loop; tac)
  end.

(** The calls of a loop whose writes were all accepted are invisible to an
    observation that ignores [log.Printf] and accepted writes. *)
Section AcceptedEvents.

Variable w : Writer.
Variable p : event -> bool.
Hypothesis p_printf : forall f a, p (EvPrintf f a) = false.
Hypothesis p_accepted : forall w b, p (EvWrite w b None) = false.

Lemma existsb_accepted L t :
  existsb p (flat_map (fun c => sent w c None) L ++ t) = existsb p t.
Proof.
  induction L as [|c L IH]; [reflexivity|].
  cbn [flat_map sent app existsb]. now rewrite p_printf, p_accepted, IH.
Qed.

Lemma filter_accepted L t :
  filter p (flat_map (fun c => sent w c None) L ++ t) = filter p t.
Proof.
  induction L as [|c L IH]; [reflexivity|].
  cbn [flat_map sent app filter]. now rewrite p_printf, p_accepted, IH.
Qed.

Lemma after_accepted L t :
  after p (flat_map (fun c => sent w c None) L ++ t) = after p t.
Proof.
  induction L as [|c L IH]; [reflexivity|].
  cbn [flat_map sent app after]. now rewrite p_printf, p_accepted, IH.
Qed.

End AcceptedEvents.

Ltac skip_accepted1 :=
  match goal with
  | |- context [existsb ?p (flat_map (fun c => sent ?w c None) ?L ++ ?t)] =>
      rewrite (existsb_accepted w p (fun _ _ => eq_refl) (fun _ _ => eq_refl) L t)
  | |- context [filter ?p (flat_map (fun c => sent ?w c None) ?L ++ ?t)] =>
      rewrite (filter_accepted w p (fun _ _ => eq_refl) (fun _ _ => eq_refl) L t)
  | |- context [after ?p (flat_map (fun c => sent ?w c None) ?L ++ ?t)] =>
      rewrite (after_accepted w p (fun _ _ => eq_refl) (fun _ _ => eq_refl) L t)
  end.

Ltac skip_accepted := repeat (skip_accepted1; norm).

(** What the writers hold at the end of a path. *)
Ltac open_written :=
  unfold stdin_bytes, bytes_of, stdin_chunks, chunks_of, extend;
  cbn [written app fst snd].

Ltac refute_in H :=
  cbn [In] in H;
  repeat (destruct H as [H|H]; [discriminate H|]);
  try contradiction.

(** ** Node creation *)

(** C4.  When the provider's [Create] returns an error the process exits
    with status 1 without sleeping, dialing, opening a session or writing
    any command. *)
Theorem create_failure_aborts (env : Env) :
  let tr := trace (snd (run_main env)) in
  occurs is_create_failed tr = true ->
  fst (run_main env) = Exited 1
  /\ exit_status (fst (run_main env)) <> 0%Z
  /\ occurs is_sleep tr = false
  /\ occurs is_dial tr = false
  /\ occurs is_new_session tr = false
  /\ occurs is_write tr = false.
Proof.
  exec; skip_loop.
  all: try (intros H; discriminate H).
  all: intros _; repeat split; try reflexivity; discriminate.
Qed.

(** C5.  Whatever time [Create] took, once it has acknowledged the node no
    connection attempt has been made yet, and a full minute of [time.Sleep]
    passes between the acknowledgment and the first connection attempt. *)
Theorem readiness_delay_before_dial (env : Env) req latency n :
  let tr := trace (snd (run_main env)) in
  In (EvCreate req latency (Ok n)) tr ->
  occurs is_dial (before is_created tr) = false
  /\ slept (before is_dial (after is_created tr)) = (1 * time.Minute)%Z
  /\ (1 * time.Minute = 60 * 1000000000)%Z.
Proof.
  exec; skip_loop.
  all: try (intros H; refute_in H; fail).
  all: intros _; repeat split; reflexivity.
Qed.

(** ** The connection target *)

(** C9.  Every connection attempt of a run goes to port 22 of the first
    IPv4 address the created node reported, over tcp, and a run makes at
    most one attempt. *)
Theorem dial_target_is_first_v4 (env : Env) network addr :
  let tr := trace (snd (run_main env)) in
  In (network, addr) (dial_targets tr) ->
  exists n v4 others,
    created_node tr = Some n
    /\ node.V4 (node.Nets n) = v4 :: others
    /\ addr = v4 ++ ":22"
    /\ network = "tcp"
    /\ dial_targets tr = [(network, addr)].
Proof.
  exec; skip_loop.
  all: try (intros H; exact (False_ind _ H)).
  all: intros [H|[]]; injection H as <- <-.
  all: match goal with
       | Hn : nth_error (node.V4 (node.Nets ?n)) 0 = Some ?v |- _ =>
           destruct (node.V4 (node.Nets n)) as [|v4 others] eqn:Hv4;
           [discriminate Hn | injection Hn as ->];
           exists n, v, others
       end.
  all: repeat split; try reflexivity; assumption.
Qed.

(** C10.  The index into the address list is unguarded: when the run gets
    as far as a parsed private key and the created node reported no IPv4
    address, building the dial target panics with an index out of range and
    no connection is attempted; and a run that does attempt a connection
    had a node with at least one IPv4 address. *)
Theorem empty_v4_panics (env : Env) n :
  let tr := trace (snd (run_main env)) in
  created_node tr = Some n ->
  occurs is_key_parsed tr = true ->
  (node.V4 (node.Nets n) = [] ->
     fst (run_main env) = Crashed (IndexOutOfRange 0 0)
     /\ exit_status (fst (run_main env)) = 2%Z
     /\ occurs is_dial tr = false
     /\ occurs is_new_session tr = false)
  /\ (occurs is_dial tr = true -> node.V4 (node.Nets n) <> []).
Proof.
  exec; skip_loop.
  all: try (intros H; discriminate H).
  all: intros H; injection H as <-.
  all: try (intros H; discriminate H).
  all: intros _.
  all: match goal with
       | Hn : nth_error (node.V4 (node.Nets ?n)) 0 = _ |- _ =>
           destruct (node.V4 (node.Nets n)) as [|v4 others] eqn:Hv4;
           try discriminate Hn
       end.
  all: split; [intros H; try discriminate H | intros H; try discriminate H].
  all: try discriminate.
  all: repeat split; reflexivity.
Qed.

(** ** Key material *)

(** C3, as the code has it.  A key error (a key file that cannot be read, a
    private key that cannot be parsed) ends the run with status 1 before any
    connection attempt, session or command transmission.  An unreadable
    public key file is reported before the node-creation request is made; an
    unreadable private key file and a malformed private key are reported
    after the node has been created and the readiness delay has passed. *)
Theorem key_errors_fatal (env : Env) :
  let tr := trace (snd (run_main env)) in
  occurs is_key_error tr = true ->
  fst (run_main env) = Exited 1
  /\ occurs is_dial tr = false
  /\ occurs is_new_session tr = false
  /\ occurs is_write tr = false
  /\ (forall name e, In (EvReadFile name (Err e)) tr ->
        exists config, config_of tr = Some config
          /\ ((name = IdentityFile config ++ ".pub" /\ occurs is_create tr = false)
              \/ (name = IdentityFile config /\ occurs is_created tr = true
                  /\ slept tr = (1 * time.Minute)%Z)))
  /\ (forall pem e, In (EvParsePrivateKey pem (Err e)) tr ->
        occurs is_created tr = true /\ slept tr = (1 * time.Minute)%Z).
Proof.
  exec; skip_loop.
  all: try (intros H; discriminate H).
  all: intros _; refine (conj _ (conj _ (conj _ (conj _ (conj _ _))))).
  all: try reflexivity.
  all: intros x e' H; cbn [In] in H.
  all: repeat (destruct H as [H|H]; [try discriminate H|]); try contradiction.
  all: try (injection H as <- <-).
  all: try (split; reflexivity).
  all: match goal with
       | |- exists c, Some ?c0 = Some c /\ _ => exists c0; split; [reflexivity|]
       end.
  all: first [ left; split; reflexivity | right; repeat split; reflexivity ].
Qed.

(** ** Release of the session *)

(** The deferred [session.Close()] runs exactly when [main] returns: a run
    that created a session closes it once if the wait succeeded, and never
    if it left through [log.Fatalln]. *)
Lemma session_closed_iff_returned (env : Env) :
  let tr := trace (snd (run_main env)) in
  occurs is_session_created tr = true ->
  count is_close tr
  = match fst (run_main env) with Returned => 1%nat | _ => 0%nat end.
Proof.
  unfold count.
  exec_by ltac:(first [ intros H; discriminate H | intros _; reflexivity ]).
Qed.

(** ** Order of shell start, transmission and wait *)

(** C8.  Nothing is written, to any writer, before the shell has been
    started.  The shell is requested once, on the session the run created,
    and has started before the first write; every write of the run goes to
    that session's input pipe.  When the wait begins it is the wait on that
    same session: every command of the list has been written to its input
    pipe, in order, each write accepted, and nothing is written afterwards,
    so the pipe holds exactly the lines of the list. *)
Theorem shell_then_commands_then_wait (env : Env) :
  let tr := trace (snd (run_main env)) in
  sends (before is_shell_started tr) = []
  /\ writes (before is_shell_started tr) = []
  /\ (occurs is_write tr = true ->
      occurs is_shell_started (before is_write tr) = true
      /\ exists c sess,
           filter is_new_session tr = [EvNewSession c (Ok sess)]
           /\ filter is_shell tr = [EvShell sess None]
           /\ Forall (sent_to (SessionStdin sess)) (sends tr))
  /\ (occurs is_wait tr = true ->
      exists config c sess r,
        config_of tr = Some config
        /\ filter is_new_session tr = [EvNewSession c (Ok sess)]
        /\ filter is_shell tr = [EvShell sess None]
        /\ filter is_wait tr = [EvWait sess r]
        /\ sends (before is_wait tr)
           = map (fun cmd => (SessionStdin sess, line cmd, None)) (cmds config)
        /\ sends (after is_wait tr) = []
        /\ writes (before is_wait tr) = map (fun c => (line c, None)) (cmds config)
        /\ writes (after is_wait tr) = []
        /\ chunks_of (SessionStdin sess) (snd (run_main env))
           = map line (cmds config)).
Proof.
  exec_by ltac:(
    refine (conj eq_refl (conj eq_refl (conj _ _)));
    [ first [ intros H; discriminate H
            | intros _; split; [reflexivity|];
              do 2 eexists; split; [reflexivity|]; split; [reflexivity|];
              try apply sends_to_writer;
              repeat first [ apply Forall_nil
                           | apply Forall_cons; [reflexivity|] ] ]
    | first [ intros H; discriminate H
            | intros _; do 4 eexists;
              split; [reflexivity|]; split; [reflexivity|];
              split; [reflexivity|]; split; [reflexivity|];
              open_written;
              rewrite ?app_nil_r, ?chunks_for_own; subst;
              repeat split; reflexivity ] ]).
Qed.

(** ** Transmission failures *)

(** Accepted writes never show a failure. *)
Lemma nth_error_accepted (L : list (list string)) i p x :
  nth_error (map (fun c => (line c, @None (nat * error))) L) i = Some (p, Some x) ->
  False.
Proof.
  revert i; induction L as [|c L IH]; intros [|i] H; cbn in H;
    try discriminate H; eauto.
Qed.

(** In a transmission stopped by a failure, the failed write is the last. *)
Lemma nth_error_failed (L : list (list string)) k i q y p x :
  (k < List.length L)%nat ->
  nth_error (map (fun c => (line c, @None (nat * error))) (firstn k L)
             ++ [(q, Some y)]) i = Some (p, Some x) ->
  i = k /\ q = p /\ y = x.
Proof.
  intros Hk H.
  assert (Hlen : List.length (map (fun c => (line c, @None (nat * error)))
                                  (firstn k L)) = k).
  { rewrite length_map, length_firstn. lia. }
  destruct (Nat.lt_ge_cases i k) as [Hlt|Hge].
  - rewrite nth_error_app1 in H by (rewrite Hlen; exact Hlt).
    now apply nth_error_accepted in H.
  - rewrite nth_error_app2 in H by (rewrite Hlen; exact Hge).
    rewrite Hlen in H.
    destruct (i - k)%nat as [|d] eqn:Hd.
    + cbn in H. injection H as <- <-. repeat split. lia.
    + cbn in H. destruct d; discriminate H.
Qed.

(** C6.  When the write of command [i] fails, the process exits with status
    1 and that write is the last one: the session had been created, the
    commands before [i] were written and accepted in order, and no later
    command is written.  All these writes went to the input pipe of the
    session the run created, and no other writer received anything. *)
Theorem write_failure_stops_transmission (env : Env) i p n e :
  let tr := trace (snd (run_main env)) in
  nth_error (writes tr) i = Some (p, Some (n, e)) ->
  fst (run_main env) = Exited 1
  /\ exit_status (fst (run_main env)) <> 0%Z
  /\ occurs is_session_created tr = true
  /\ List.length (writes tr) = S i
  /\ exists config cmd,
       config_of tr = Some config
       /\ nth_error (cmds config) i = Some cmd
       /\ p = line cmd
       /\ writes tr = (map (fun c => (line c, None)) (firstn i (cmds config))
                       ++ [(line cmd, Some (n, e))])%list
       /\ stdin_chunks (snd (run_main env))
          = (map line (firstn i (cmds config)) ++ [substring 0 n (line cmd)])%list
       /\ exists c sess,
            filter is_new_session tr = [EvNewSession c (Ok sess)]
            /\ sends tr
               = (map (fun c => (SessionStdin sess, line c, None))
                      (firstn i (cmds config))
                  ++ [(SessionStdin sess, line cmd, Some (n, e))])%list
            /\ written (snd (run_main env))
               = (map (fun c => (SessionStdin sess, line c))
                      (firstn i (cmds config))
                  ++ [(SessionStdin sess, substring 0 n (line cmd))])%list.
Proof.
  exec_by ltac:(
    intros H;
    first
      [ destruct i; discriminate H
      | rewrite app_nil_r in H; now apply nth_error_accepted in H
      | match goal with
        | Hi : nth_error ?L ?k = Some ?c |- _ =>
            assert (Hk : (k < List.length L)%nat)
              by (apply nth_error_Some; rewrite Hi; discriminate);
            destruct (nth_error_failed L k i _ _ _ _ Hk H) as (-> & <- & Hy);
            injection Hy as <- <-;
            subst L;
            repeat split;
            [ discriminate
            | rewrite length_app, length_map, length_firstn;
              cbn [List.length]; lia
            | eexists; exists c;
              split; [reflexivity|]; split; [exact Hi|];
              open_written;
              rewrite session_chunks_app, session_chunks_own;
              split; [reflexivity|]; split; [reflexivity|];
              split; [reflexivity|];
              do 2 eexists; repeat split; reflexivity ]
        end ]).
Qed.

(** ** The bytes sent to the session *)

Lemma append_nil_r (s : string) : s ++ "" = s.
Proof. induction s as [|c s IH]; cbn; [reflexivity | now rewrite IH]. Qed.

Lemma append_assoc (a b c : string) : (a ++ b) ++ c = a ++ (b ++ c).
Proof. induction a as [|x a IH]; cbn; [reflexivity | now rewrite IH]. Qed.

Lemma concat_cons (x : string) (l : list string) :
  String.concat "" (x :: l) = x ++ String.concat "" l.
Proof. destruct l; cbn; [now rewrite append_nil_r | reflexivity]. Qed.

Lemma concat_app (a b : list string) :
  String.concat "" (a ++ b) = String.concat "" a ++ String.concat "" b.
Proof.
  induction a as [|x a IH]; [reflexivity|].
  change ((x :: a) ++ b)%list with (x :: (a ++ b))%list.
  now rewrite !concat_cons, IH, append_assoc.
Qed.

(** [strings.Join] puts the separator between consecutive elements and
    nowhere else; nothing is quoted or escaped. *)
Lemma Join_concat (elems : list string) (sep : string) :
  strings.Join elems sep = String.concat sep elems.
Proof.
  induction elems as [|x [|y rest] IH]; try reflexivity.
  cbn [strings.Join String.concat] in *. now rewrite IH.
Qed.

Lemma sends_app (t1 t2 : list event) :
  sends (t1 ++ t2) = (sends t1 ++ sends t2)%list.
Proof.
  induction t1 as [|e t1 IH]; [reflexivity|].
  destruct e; cbn; rewrite ?IH; reflexivity.
Qed.

Lemma writes_app (t1 t2 : list event) :
  writes (t1 ++ t2) = (writes t1 ++ writes t2)%list.
Proof.
  induction t1 as [|e t1 IH]; [reflexivity|].
  destruct e; cbn; rewrite ?IH; reflexivity.
Qed.

(** C1.  For every writer and every command list, when the writer accepts
    every write, the loop ends normally and that writer has received, after
    what it held before, exactly the lines of the commands in list order,
    one write per command: each line is the command's tokens joined by a
    single space, followed by one newline.  And in [main] the writer is the
    input pipe of the session the run created: in a run that started the
    shell and had no write refused, everything written went to that pipe,
    which holds the lines of the whole command list and nothing else. *)
Theorem stdin_receives_command_lines (env : Env) :
  (forall (w : Writer) (L : list (list string)) (s : state),
     (forall i cmd, nth_error L i = Some cmd ->
        writer_Write env w (List.length (chunks_of w s) + i)
                     (strings.Join cmd " " ++ LF) = None) ->
     let s' := snd (send_cmds env w L s) in
     fst (send_cmds env w L s) = Val tt
     /\ written s'
        = (written s
           ++ map (fun cmd => (w, (strings.Join cmd " " ++ LF)%string)) L)%list
     /\ bytes_of w s'
        = bytes_of w s
          ++ String.concat "" (map (fun cmd => String.concat " " cmd ++ LF) L)
     /\ sends (trace s')
        = (sends (trace s)
           ++ map (fun cmd => (w, (strings.Join cmd " " ++ LF)%string, None)) L)%list)
  /\ (let run := run_main env in
      occurs is_shell_started (trace (snd run)) = true ->
      occurs is_write_failed (trace (snd run)) = false ->
      exists config c sess,
        config_of (trace (snd run)) = Some config
        /\ filter is_new_session (trace (snd run)) = [EvNewSession c (Ok sess)]
        /\ written (snd run)
           = map (fun cmd => (SessionStdin sess, (strings.Join cmd " " ++ LF)%string))
                 (cmds config)
        /\ bytes_of (SessionStdin sess) (snd run)
           = String.concat "" (map (fun cmd => String.concat " " cmd ++ LF)
                                   (cmds config))
        /\ stdin_bytes (snd run)
           = String.concat "" (map (fun cmd => String.concat " " cmd ++ LF)
                                   (cmds config))).
Proof.
  split.
  - intros w L s H. cbv zeta.
    rewrite (send_cmds_all_ok env w L s H). cbn [fst snd].
    unfold bytes_of, chunks_of, extend; cbn [trace written].
    repeat split.
    + rewrite chunks_for_app, chunks_for_own, concat_app. f_equal. f_equal.
      apply map_ext; intros cmd. unfold line. now rewrite Join_concat.
    + rewrite sends_app. f_equal.
      rewrite <- (app_nil_r (flat_map _ L)), sends_sent. apply app_nil_r.
  - exec_by ltac:(
      skip_accepted;
      intros H1;
      first
        [ discriminate H1
        | intros H2;
          first
            [ discriminate H2
            | do 3 eexists;
              split; [reflexivity|]; split; [reflexivity|];
              split; [subst; reflexivity|];
              open_written;
              rewrite ?chunks_for_own, ?session_chunks_own; subst;
              split; f_equal; apply map_ext; intros cmd; unfold line;
              now rewrite Join_concat ] ]).
Qed.

(** In a run that reaches the wait, the session's input stream holds the
    lines of the whole command list. *)
Lemma main_stdin_chunks (env : Env) :
  let run := run_main env in
  occurs is_wait (trace (snd run)) = true ->
  exists config,
    config_of (trace (snd run)) = Some config
    /\ stdin_chunks (snd run) = map line (cmds config).
Proof.
  exec_by ltac:(
    first [ intros H; discriminate H
          | intros _; eexists; split; [reflexivity|];
            open_written;
            rewrite session_chunks_own; subst; reflexivity ]).
Qed.

(** ** Output relay *)










(** ** The runs of the sample worlds *)

(** C2 on the code.  In the world where the shell is refused, the session
    has been created and its [Close] is deferred, but the process leaves
    through [log.Fatalln]: it exits with status 1, the deferred call is still
    pending and the session is never closed. *)
Theorem session_left_open_on_fatal :
  let run := run_main world_no_shell in
  occurs is_session_created (trace (snd run)) = true
  /\ fst run = Exited 1
  /\ deferred (snd run) = [DeferClose 7%nat]
  /\ count is_close (trace (snd run)) = 0%nat.
Proof. vm_compute. repeat split. Qed.

(** When everything goes well the session is closed once, after the wait. *)
Lemma session_closed_on_return :
  let run := run_main world_ok in
  fst run = Returned
  /\ count is_close (trace (snd run)) = 1%nat
  /\ after is_wait (trace (snd run)) = [EvClose 7%nat].
Proof. vm_compute. repeat split. Qed.

(** C3 as stated fails: the unreadable private key is found out after the
    node has been requested and created. *)
Lemma private_key_error_after_create :
  ~ reported_before_any_remote_action world_no_private_key.
Proof.
  intros H. destruct (H eq_refl) as (_ & Hcreate & _). discriminate Hcreate.
Qed.

Lemma stdin_receives_command_lines_witness :
  (forall i cmd,
     nth_error [["echo"; "hi"]; ["cd"; "stk"]; ["ls"]] i = Some cmd ->
     writer_Write world_ok (SessionStdin 7%nat)
                  (List.length (chunks_of (SessionStdin 7%nat) init_state) + i)
                  (strings.Join cmd " " ++ LF) = None)
  /\ bytes_of (SessionStdin 7%nat)
              (snd (send_cmds world_ok (SessionStdin 7%nat)
                              [["echo"; "hi"]; ["cd"; "stk"]; ["ls"]] init_state))
     = "echo hi" ++ LF ++ "cd stk" ++ LF ++ "ls" ++ LF
  /\ occurs is_shell_started (trace (snd (run_main world_ok))) = true
  /\ occurs is_write_failed (trace (snd (run_main world_ok))) = false
  /\ exists config c sess,
       config_of (trace (snd (run_main world_ok))) = Some config
       /\ filter is_new_session (trace (snd (run_main world_ok)))
          = [EvNewSession c (Ok sess)]
       /\ written (snd (run_main world_ok))
          = map (fun cmd => (SessionStdin sess, (strings.Join cmd " " ++ LF)%string))
                (cmds config).
Proof.
  assert (H : forall i cmd,
     nth_error [["echo"; "hi"]; ["cd"; "stk"]; ["ls"]] i = Some cmd ->
     writer_Write world_ok (SessionStdin 7%nat)
                  (List.length (chunks_of (SessionStdin 7%nat) init_state) + i)
                  (strings.Join cmd " " ++ LF) = None)
    by (intros; reflexivity).
  split; [exact H|].
  destruct (stdin_receives_command_lines world_ok) as (Hloop & Hrun).
  destruct (Hloop (SessionStdin 7%nat)
                  [["echo"; "hi"]; ["cd"; "stk"]; ["ls"]] init_state H)
    as (_ & _ & Hbytes & _).
  split; [exact Hbytes|].
  split; [reflexivity|]. split; [reflexivity|].
  destruct (Hrun eq_refl eq_refl) as (config & c & sess & Hc & Hs & Hw & _).
  exists config, c, sess. repeat split; assumption.
Defined.

Lemma key_errors_fatal_witness :
  occurs is_key_error (trace (snd (run_main world_no_private_key))) = true
  /\ fst (run_main world_no_private_key) = Exited 1
  /\ occurs is_dial (trace (snd (run_main world_no_private_key))) = false
  /\ occurs is_write (trace (snd (run_main world_no_private_key))) = false.
Proof.
  split; [reflexivity|].
  destruct (key_errors_fatal world_no_private_key eq_refl)
    as (Hexit & Hdial & _ & Hwrite & _).
  repeat split; assumption.
Defined.

Lemma create_failure_aborts_witness :
  occurs is_create_failed (trace (snd (run_main world_quota))) = true
  /\ fst (run_main world_quota) = Exited 1
  /\ occurs is_sleep (trace (snd (run_main world_quota))) = false
  /\ occurs is_new_session (trace (snd (run_main world_quota))) = false.
Proof.
  split; [reflexivity|].
  destruct (create_failure_aborts world_quota eq_refl)
    as (Hexit & _ & Hsleep & _ & Hsession & _).
  repeat split; assumption.
Defined.

Lemma readiness_delay_before_dial_witness :
  In (EvCreate sample_request 5 (Ok sample_node))
     (trace (snd (run_main world_ok)))
  /\ slept (before is_dial (after is_created (trace (snd (run_main world_ok)))))
     = (1 * time.Minute)%Z.
Proof.
  assert (H : In (EvCreate sample_request 5 (Ok sample_node))
                 (trace (snd (run_main world_ok))))
    by (vm_compute; do 6 right; left; reflexivity).
  split; [exact H|].
  destruct (readiness_delay_before_dial world_ok sample_request 5 sample_node H)
    as (_ & Hslept & _).
  exact Hslept.
Defined.

Lemma write_failure_stops_transmission_witness :
  nth_error (writes (trace (snd (run_main world_broken_pipe)))) 2
  = Some (line (nth 2 (cmds sample_cfg) []), Some (3%nat, "broken pipe"))
  /\ fst (run_main world_broken_pipe) = Exited 1
  /\ List.length (writes (trace (snd (run_main world_broken_pipe)))) = 3%nat.
Proof.
  split; [reflexivity|].
  destruct (write_failure_stops_transmission world_broken_pipe 2
              (line (nth 2 (cmds sample_cfg) [])) 3 "broken pipe" eq_refl)
    as (Hexit & _ & _ & Hlen & _).
  split; assumption.
Defined.


Lemma shell_then_commands_then_wait_witness :
  occurs is_wait (trace (snd (run_main world_ok))) = true
  /\ occurs is_write (trace (snd (run_main world_ok))) = true
  /\ occurs is_shell_started
       (before is_write (trace (snd (run_main world_ok)))) = true
  /\ exists config c sess r,
       config_of (trace (snd (run_main world_ok))) = Some config
       /\ filter is_new_session (trace (snd (run_main world_ok)))
          = [EvNewSession c (Ok sess)]
       /\ filter is_shell (trace (snd (run_main world_ok))) = [EvShell sess None]
       /\ filter is_wait (trace (snd (run_main world_ok))) = [EvWait sess r]
       /\ sends (before is_wait (trace (snd (run_main world_ok))))
          = map (fun cmd => (SessionStdin sess, line cmd, None)) (cmds config)
       /\ sends (after is_wait (trace (snd (run_main world_ok)))) = [].
Proof.
  split; [reflexivity|]. split; [reflexivity|].
  destruct (shell_then_commands_then_wait world_ok) as (_ & _ & Hshell & Hwait).
  split; [exact (proj1 (Hshell eq_refl))|].
  destruct (Hwait eq_refl)
    as (config & c & sess & r & Hc & Hs & Hsh & Hw & Hb & Ha & _).
  exists config, c, sess, r. repeat split; assumption.
Defined.

Lemma dial_target_is_first_v4_witness :
  In ("tcp", "10.0.0.1:22") (dial_targets (trace (snd (run_main world_ok))))
  /\ dial_targets (trace (snd (run_main world_ok))) = [("tcp", "10.0.0.1:22")].
Proof.
  assert (H : In ("tcp", "10.0.0.1:22")
                 (dial_targets (trace (snd (run_main world_ok)))))
    by (vm_compute; left; reflexivity).
  split; [exact H|].
  destruct (dial_target_is_first_v4 world_ok "tcp" "10.0.0.1:22" H)
    as (n & v4 & others & _ & _ & _ & _ & Honly).
  exact Honly.
Defined.

Lemma empty_v4_panics_witness :
  created_node (trace (snd (run_main world_no_address)))
  = Some (node.mkNode "n1" (node.mkNetworks [] []))
  /\ occurs is_key_parsed (trace (snd (run_main world_no_address))) = true
  /\ fst (run_main world_no_address) = Crashed (IndexOutOfRange 0 0)
  /\ occurs is_dial (trace (snd (run_main world_no_address))) = false.
Proof.
  split; [reflexivity|]. split; [reflexivity|].
  destruct (empty_v4_panics world_no_address
              (node.mkNode "n1" (node.mkNetworks [] [])) eq_refl eq_refl)
    as [Hpanic _].
  destruct (Hpanic eq_refl) as (Hcrash & _ & Hdial & _).
  split; assumption.
Defined.

(** ** Further properties of [main] *)

(** X5.  Fail fast.  A run exits through [os.Exit] exactly when one of its
    calls answered with an error, and then with status 1; that call is the
    only failed call of the run and nothing follows it but the one
    [log.Fatalln] line.  A run without a failed call logs no fatal line. *)
Theorem fail_fast (env : Env) :
  let tr := trace (snd (run_main env)) in
  (occurs is_failure tr = true <-> fst (run_main env) = Exited 1)
  /\ (forall code, fst (run_main env) = Exited code -> code = 1%Z)
  /\ count is_fatalln tr = count is_failure tr
  /\ (occurs is_failure tr = true ->
      count is_failure tr = 1%nat
      /\ exists args, after is_failure tr = [EvFatalln args]).
Proof.
  unfold count.
  exec_by ltac:(
    skip_accepted;
    refine (conj (conj _ _) (conj _ (conj eq_refl _)));
    [ intros H; first [reflexivity | discriminate H]
    | intros H; first [reflexivity | discriminate H]
    | intros code H; first [now injection H | discriminate H]
    | intros H; first [discriminate H | split; [reflexivity | eexists; reflexivity]] ]).
Qed.

(** X1.  When the configuration file cannot be opened, read or decoded, the
    run exits with status 1 having decoded no configuration, read no key
    file, built no driver, and made no remote call. *)
Theorem config_errors_fatal (env : Env) :
  let tr := trace (snd (run_main env)) in
  occurs is_cfg_error tr = true ->
  fst (run_main env) = Exited 1
  /\ config_of tr = None
  /\ occurs is_read_file tr = false
  /\ occurs is_new_driver tr = false
  /\ occurs is_create tr = false
  /\ occurs is_dial tr = false
  /\ occurs is_write tr = false.
Proof.
  exec_by ltac:(
    intros H; first [discriminate H | repeat apply conj; reflexivity]).
Qed.

(** X2.  When the provider driver cannot be built, the run exits with
    status 1 before the node-creation request: only the public key file has
    been read, and nothing is created, slept for, dialed or written. *)
Theorem driver_error_fatal (env : Env) :
  let tr := trace (snd (run_main env)) in
  occurs is_driver_failed tr = true ->
  fst (run_main env) = Exited 1
  /\ count is_read_file tr = 1%nat
  /\ occurs is_create tr = false
  /\ occurs is_sleep tr = false
  /\ occurs is_dial tr = false
  /\ occurs is_new_session tr = false
  /\ occurs is_write tr = false.
Proof.
  unfold count.
  exec_by ltac:(
    intros H; first [discriminate H | repeat apply conj; reflexivity]).
Qed.

(** X6.  A run starts either no relay or exactly two, in this order: the
    session's error stream to the local standard error, then the session's
    output stream to the local standard output.  They are started only once
    the three pipes of the created session have been obtained, and before
    the shell is requested. *)
Theorem relays_wiring (env : Env) :
  let tr := trace (snd (run_main env)) in
  filter is_go tr = []
  \/ exists c s,
       filter is_go tr
       = [EvGo (GoCopy OsStderr (SessionStderr s));
          EvGo (GoCopy OsStdout (SessionStdout s))]
       /\ filter is_new_session tr = [EvNewSession c (Ok s)]
       /\ filter is_pipe (before is_go tr)
          = [EvStdinPipe s (Ok (SessionStdin s));
             EvStderrPipe s (Ok (SessionStderr s));
             EvStdoutPipe s (Ok (SessionStdout s))]
       /\ occurs is_shell (before is_go tr) = false
       /\ occurs is_go (after is_shell tr) = false.
Proof.
  exec_by ltac:(
    first [ left; reflexivity
          | right; do 2 eexists; repeat apply conj; reflexivity ]).
Qed.

(** X7.  When the wait returns an error, it is the wait on the session the
    run created: the run reports that error and exits with status 1, after
    every command of the list has been written to that session's input
    pipe, in order, each write accepted; no other writer received
    anything. *)
Theorem wait_failure_after_full_transmission (env : Env) :
  let tr := trace (snd (run_main env)) in
  occurs is_wait_failed tr = true ->
  fst (run_main env) = Exited 1
  /\ exists config c sess e,
       config_of tr = Some config
       /\ filter is_new_session tr = [EvNewSession c (Ok sess)]
       /\ filter is_shell tr = [EvShell sess None]
       /\ filter is_wait tr = [EvWait sess (Some e)]
       /\ after is_wait tr = [EvFatalln [AErr e]]
       /\ sends (before is_wait tr)
          = map (fun cmd => (SessionStdin sess, line cmd, None)) (cmds config)
       /\ written (snd (run_main env))
          = map (fun cmd => (SessionStdin sess, line cmd)) (cmds config)
       /\ chunks_of (SessionStdin sess) (snd (run_main env))
          = map line (cmds config).
Proof.
  exec_by ltac:(
    intros H;
    first [ discriminate H
          | refine (conj eq_refl _);
            do 4 eexists;
            split; [reflexivity|]; split; [reflexivity|];
            split; [reflexivity|]; split; [reflexivity|];
            split; [reflexivity|];
            open_written;
            rewrite ?app_nil_r, ?chunks_for_own; subst;
            repeat split; reflexivity ]).
Qed.

(** X8.  How a run ends.  [main] returns exactly when the wait on the
    session succeeded, and then the last call of the run closes the session
    that was created.  A run panics only with an index out of range at
    position 0 of an empty address list, the private key having been parsed.
    The exit status is 0, 1 or 2. *)
Theorem exit_status_meaning (env : Env) :
  let tr := trace (snd (run_main env)) in
  (fst (run_main env) = Returned <-> occurs is_wait_ok tr = true)
  /\ (fst (run_main env) = Returned ->
      exists c s, filter is_new_session tr = [EvNewSession c (Ok s)]
                  /\ after is_wait tr = [EvClose s])
  /\ (forall v, fst (run_main env) = Crashed v ->
      v = IndexOutOfRange 0 0
      /\ occurs is_key_parsed tr = true
      /\ exists n, created_node tr = Some n /\ node.V4 (node.Nets n) = [])
  /\ (exit_status (fst (run_main env)) = 0
      \/ exit_status (fst (run_main env)) = 1
      \/ exit_status (fst (run_main env)) = 2)%Z.
Proof.
  exec_by ltac:(
    refine (conj (conj _ _) (conj _ (conj _ _)));
    [ intros H; first [reflexivity | discriminate H]
    | intros H; first [reflexivity | discriminate H]
    | intros H; first [discriminate H | do 2 eexists; split; reflexivity]
    | intros v H; first
        [ discriminate H
        | injection H as <-;
          match goal with
          | Hn : nth_error ?l 0 = None |- _ =>
              destruct l eqn:Hl; [|discriminate Hn]
          end;
          repeat apply conj; try reflexivity;
          eexists; split; [reflexivity | assumption] ]
    | first [left; reflexivity | right; left; reflexivity | right; right; reflexivity] ]).
Qed.

(** X9.  Nothing is retried: a run builds at most one driver, makes at most
    one node-creation request, sleeps at most once, dials at most once,
    opens at most one session, requests at most one shell, waits at most
    once and closes at most once; it reads at most two key files and starts
    at most two relays. *)
Theorem no_retries (env : Env) :
  let tr := trace (snd (run_main env)) in
  (count is_new_driver tr <= 1
   /\ count is_create tr <= 1
   /\ count is_sleep tr <= 1
   /\ count is_dial tr <= 1
   /\ count is_new_session tr <= 1
   /\ count is_shell tr <= 1
   /\ count is_wait tr <= 1
   /\ count is_close tr <= 1
   /\ count is_read_file tr <= 2
   /\ count is_go tr <= 2)%nat.
Proof.
  unfold count.
  exec_by ltac:(repeat apply conj; lia).
Qed.

(** X14.  The set-up steps depend on one another in the order of [main]:
    the driver is built only after the configuration was decoded and the
    public key file read; the node is requested only with a driver; a
    connection is attempted only after the sleep and with a parsed private
    key; a session is opened only on an established connection; pipes are
    asked only of a created session; and the shell is requested only after
    both relays were started. *)
Theorem setup_order (env : Env) :
  let tr := trace (snd (run_main env)) in
  (occurs is_new_driver tr = true ->
     config_of (before is_new_driver tr) <> None
     /\ occurs is_read_ok (before is_new_driver tr) = true)
  /\ (occurs is_create tr = true ->
      occurs is_driver_ok (before is_create tr) = true)
  /\ (occurs is_dial tr = true ->
      occurs is_sleep (before is_dial tr) = true
      /\ occurs is_key_parsed (before is_dial tr) = true)
  /\ (occurs is_new_session tr = true ->
      occurs is_dial_ok (before is_new_session tr) = true)
  /\ (occurs is_pipe tr = true ->
      occurs is_session_created (before is_pipe tr) = true)
  /\ (occurs is_shell tr = true ->
      count is_go (before is_shell tr) = 2%nat).
Proof.
  unfold count.
  exec_by ltac:(
    refine (conj _ (conj _ (conj _ (conj _ (conj _ _))))); intros H;
    first [ discriminate H
          | reflexivity
          | split; [discriminate | reflexivity]
          | split; reflexivity ]).
Qed.

(** ** [bytes.Trim] *)

Lemma list_ascii_of_string_app (a b : string) :
  list_ascii_of_string (a ++ b)
  = (list_ascii_of_string a ++ list_ascii_of_string b)%list.
Proof. induction a as [|c a IH]; cbn; [reflexivity | now rewrite IH]. Qed.

Lemma string_of_list_ascii_app (x y : list ascii) :
  string_of_list_ascii (x ++ y)
  = string_of_list_ascii x ++ string_of_list_ascii y.
Proof. induction x as [|c x IH]; cbn; [reflexivity | now rewrite IH]. Qed.

Lemma reverse_involutive (s : string) : bytes.reverse (bytes.reverse s) = s.
Proof.
  unfold bytes.reverse.
  now rewrite list_ascii_of_string_of_list_ascii, rev_involutive,
    string_of_list_ascii_of_string.
Qed.

Lemma reverse_app (a b : string) :
  bytes.reverse (a ++ b) = bytes.reverse b ++ bytes.reverse a.
Proof.
  unfold bytes.reverse.
  now rewrite list_ascii_of_string_app, rev_app_distr, string_of_list_ascii_app.
Qed.

Lemma all_in_app cs (a b : string) :
  all_in cs (a ++ b) = all_in cs a && all_in cs b.
Proof.
  induction a as [|c a IH]; cbn; [reflexivity|].
  now rewrite IH, andb_assoc.
Qed.

Lemma all_in_reverse cs (s : string) : all_in cs (bytes.reverse s) = all_in cs s.
Proof.
  induction s as [|c s IH]; [reflexivity|].
  change (String c s) with (String c "" ++ s).
  rewrite reverse_app, !all_in_app, IH. apply andb_comm.
Qed.

Lemma TrimLeft_split (s cs : string) :
  exists pre, s = pre ++ bytes.TrimLeft s cs /\ all_in cs pre = true.
Proof.
  induction s as [|c s (pre & Hs & Hpre)]; cbn.
  - exists "". now split.
  - destruct (bytes.mem c cs) eqn:Hc.
    + exists (String c pre). cbn. rewrite Hc, Hpre. split; [now f_equal | reflexivity].
    + exists "". now split.
Qed.

Lemma TrimLeft_head (s cs : string) : head_in cs (bytes.TrimLeft s cs) = false.
Proof.
  induction s as [|c s IH]; cbn; [reflexivity|].
  destruct (bytes.mem c cs) eqn:Hc; [exact IH | cbn; exact Hc].
Qed.

Lemma TrimRight_split (s cs : string) :
  exists post, s = bytes.TrimRight s cs ++ post /\ all_in cs post = true.
Proof.
  destruct (TrimLeft_split (bytes.reverse s) cs) as (pre & Hs & Hpre).
  exists (bytes.reverse pre). split.
  - unfold bytes.TrimRight. rewrite <- reverse_app, <- Hs.
    symmetry. apply reverse_involutive.
  - now rewrite all_in_reverse.
Qed.

(** [bytes.Trim] removes cutset bytes at both ends and nothing else. *)
Lemma Trim_split (s cs : string) :
  exists pre post,
    s = pre ++ bytes.Trim s cs ++ post
    /\ all_in cs pre = true /\ all_in cs post = true.
Proof.
  destruct (TrimLeft_split s cs) as (pre & Hs & Hpre).
  destruct (TrimRight_split (bytes.TrimLeft s cs) cs) as (post & Ht & Hpost).
  exists pre, post. unfold bytes.Trim. rewrite <- Ht. auto.
Qed.

(** What [bytes.Trim] returns neither starts nor ends with a cutset byte. *)
Lemma Trim_ends (s cs : string) :
  head_in cs (bytes.Trim s cs) = false /\ last_in cs (bytes.Trim s cs) = false.
Proof.
  split.
  - unfold bytes.Trim.
    pose proof (TrimLeft_head s cs) as Hhead.
    destruct (TrimRight_split (bytes.TrimLeft s cs) cs) as (post & Ht & _).
    destruct (bytes.TrimRight (bytes.TrimLeft s cs) cs) as [|c r]; [reflexivity|].
    rewrite Ht in Hhead. exact Hhead.
  - unfold last_in, bytes.Trim, bytes.TrimRight.
    rewrite reverse_involutive. apply TrimLeft_head.
Qed.

Ltac find_in := repeat first [left; reflexivity | right].

(** X3.  Every node-creation request of a run is the fixed request of
    [main]: the driver's default user, name [stk-memes], region [BHS5], size
    [B2-15], hourly billing, and as authorized key the contents of the file
    [IdentityFile ++ ".pub"] with the white space at both ends removed and
    nothing else changed. *)
Theorem create_request_contents (env : Env) req latency r :
  let tr := trace (snd (run_main env)) in
  In (EvCreate req latency r) tr ->
  exists config d driver,
    config_of tr = Some config
    /\ In (EvReadFile (IdentityFile config ++ ".pub") (Ok d)) tr
    /\ In (EvNewOVHDriver "CA" (node.AppKey (OVHConfig config))
             (node.AppSecret (OVHConfig config))
             (node.ConsumerKey (OVHConfig config))
             (node.ProjectID (OVHConfig config)) (Ok driver)) tr
    /\ req = node.mkCreateRequest (node.DefaultUser driver) "stk-memes" "BHS5"
               "B2-15" (bytes.Trim d whitespace) node.Hourly
    /\ (exists pre post,
          d = pre ++ node.SSHKey req ++ post
          /\ all_in whitespace pre = true /\ all_in whitespace post = true)
    /\ head_in whitespace (node.SSHKey req) = false
    /\ last_in whitespace (node.SSHKey req) = false.
Proof.
  cbv zeta. intros H.
  assert (H' := proj2 (filter_In is_create _ _) (conj H eq_refl)).
  clear H. revert H'.
  exec_by ltac:(
    intros H;
    first
      [ exact (False_ind _ H)
      | destruct H as [H|[]]; injection H as <- <- <-;
        do 3 eexists;
        split; [reflexivity|];
        split; [find_in|];
        split; [find_in|];
        split; [reflexivity|];
        cbn [node.SSHKey];
        split; [apply Trim_split | apply Trim_ends] ]).
Qed.

(** X4.  Every connection attempt of a run is configured with the user of
    the node-creation request, public-key authentication by the signer
    parsed from the contents of the file [IdentityFile], no host key
    verification, and a timeout of ten seconds. *)
Theorem dial_config_contents (env : Env) network addr conf r :
  let tr := trace (snd (run_main env)) in
  In (EvDial network addr conf r) tr ->
  exists config pem signer req latency n,
    config_of tr = Some config
    /\ In (EvReadFile (IdentityFile config) (Ok pem)) tr
    /\ In (EvParsePrivateKey pem (Ok signer)) tr
    /\ In (EvCreate req latency (Ok n)) tr
    /\ conf = ssh.mkClientConfig (node.User req) [ssh.PublicKeys signer]
                ssh.InsecureIgnoreHostKey (10 * time.Second)
    /\ (10 * time.Second = 10000000000)%Z.
Proof.
  cbv zeta. intros H.
  assert (H' := proj2 (filter_In is_dial _ _) (conj H eq_refl)).
  clear H. revert H'.
  exec_by ltac:(
    intros H;
    first
      [ exact (False_ind _ H)
      | destruct H as [H|[]]; injection H as <- <- <- <-;
        do 6 eexists;
        split; [reflexivity|];
        split; [find_in|];
        split; [find_in|];
        split; [find_in|];
        split; reflexivity ]).
Qed.

(** ** What reaches the session's input stream, whatever happens *)

Lemma substring_prefix (p : string) : forall n,
  exists rest, p = substring 0 n p ++ rest.
Proof.
  induction p as [|c p IH]; intros [|n]; cbn.
  - now exists "".
  - now exists "".
  - now exists (String c p).
  - destruct (IH n) as (rest & Hp). exists rest. now f_equal.
Qed.

Lemma nth_error_split_at {A} (L : list A) : forall i x,
  nth_error L i = Some x -> L = (firstn i L ++ x :: skipn (S i) L)%list.
Proof.
  induction L as [|y L IH]; intros [|i] x H; cbn in *; try discriminate.
  - now injection H as ->.
  - f_equal. now apply IH.
Qed.

Lemma chunks_prefix (L : list (list string)) i cmd n :
  nth_error L i = Some cmd ->
  exists rest,
    String.concat "" (map line L)
    = String.concat "" (map line (firstn i L) ++ [substring 0 n (line cmd)])
      ++ rest.
Proof.
  intros Hi.
  destruct (substring_prefix (line cmd) n) as (tl & Hp).
  exists (tl ++ String.concat "" (map line (skipn (S i) L))).
  rewrite (nth_error_split_at L i cmd Hi) at 1.
  rewrite map_app, !concat_app. cbn [map]. rewrite concat_cons.
  rewrite Hp at 1. cbn [String.concat].
  now rewrite !append_assoc.
Qed.

(** Of the chunks a writer took, the input pipes of sessions hold all or
    none. *)
Lemma session_chunks_of_writer w (cs : list string) :
  session_chunks (map (fun x => (w, x)) cs)
  = if is_session_stdin w then cs else [].
Proof.
  unfold session_chunks.
  induction cs as [|x cs IH]; [now destruct w|].
  cbn [map filter fst]. destruct (is_session_stdin w); cbn; [now f_equal | exact IH].
Qed.

(** X10.  For every writer and every command list, and whatever the writer
    answers, what the loop writes goes to that writer and is a prefix of
    the lines of the list: a failed write can cut the transmission short,
    but no other byte is ever sent, to any writer; so what the loop adds to
    the session's input stream is a prefix of the lines of the list. *)
Theorem send_cmds_sends_a_prefix (env : Env) (w : Writer)
        (L : list (list string)) (s : state) :
  (exists rest,
     stdin_bytes s ++ String.concat "" (map line L)
     = stdin_bytes (snd (send_cmds env w L s)) ++ rest)
  /\ exists sent_lines rest,
       written (snd (send_cmds env w L s))
       = (written s ++ map (fun x => (w, x)) sent_lines)%list
       /\ String.concat "" (map line L) = String.concat "" sent_lines ++ rest.
Proof.
  assert (H : exists sent_lines rest,
       written (snd (send_cmds env w L s))
       = (written s ++ map (fun x => (w, x)) sent_lines)%list
       /\ String.concat "" (map line L) = String.concat "" sent_lines ++ rest).
  { destruct (send_cmds_cases env w L s) as [-> | (i & cmd & n & e & Hi & ->)];
      cbn [snd extend written].
    - exists (map line L), "". split; [now rewrite map_map|].
      now rewrite append_nil_r.
    - destruct (chunks_prefix L i cmd n Hi) as (rest & Hrest).
      exists (map line (firstn i L) ++ [substring 0 n (line cmd)])%list, rest.
      split; [|exact Hrest].
      now rewrite map_app, map_map. }
  split; [|exact H].
  destruct H as (sent_lines & rest & Hw & Hrest).
  unfold stdin_bytes, stdin_chunks.
  rewrite Hw, session_chunks_app, session_chunks_of_writer, concat_app, Hrest.
  destruct (is_session_stdin w).
  - exists rest. now rewrite append_assoc.
  - exists (String.concat "" sent_lines ++ rest).
    cbn [String.concat]. now rewrite append_nil_r.
Qed.

(** X11.  In every run, everything written went to the input pipe of one
    session and is a prefix of the lines of the command list of the decoded
    configuration; so are the bytes the session's input stream has
    received. *)
Theorem main_sends_a_prefix (env : Env) config :
  config_of (trace (snd (run_main env))) = Some config ->
  (exists rest,
     String.concat "" (map line (cmds config))
     = stdin_bytes (snd (run_main env)) ++ rest)
  /\ exists sess sent_lines rest,
       written (snd (run_main env))
       = map (fun x => (SessionStdin sess, x)) sent_lines
       /\ String.concat "" (map line (cmds config))
          = String.concat "" sent_lines ++ rest.
Proof.
  exec_by ltac:(
    intros H;
    first
      [ discriminate H
      | injection H as <-;
        open_written;
        rewrite ?session_chunks_app, ?session_chunks_own;
        split;
        [ first
            [ eexists; reflexivity
            | subst; exists ""; now rewrite append_nil_r
            | subst; match goal with
                     | Hi : nth_error _ _ = Some _ |- _ =>
                         apply (chunks_prefix _ _ _ _ Hi)
                     end ]
        | first
            [ exists 0%nat, (@nil string); eexists; split; reflexivity
            | match goal with
              | HL : ?L = cmds _ |- context [SessionStdin ?a] =>
                  rewrite <- HL;
                  exists a, (map line L), "";
                  split; [now rewrite map_map | now rewrite append_nil_r]
              end
            | match goal with
              | HL : ?L = cmds _, Hi : nth_error ?L ?i = Some ?cmd
                |- context [(SessionStdin ?a, substring 0 ?n _)] =>
                  rewrite <- HL;
                  destruct (chunks_prefix L i cmd n Hi) as (rest & Hrest);
                  exists a,
                    (map line (firstn i L) ++ [substring 0 n (line cmd)])%list,
                    rest;
                  split; [now rewrite map_app, map_map | exact Hrest]
              end ] ] ]).
Qed.

(** X12.  Nothing is quoted: a token that contains a space is sent as the
    same line as the two tokens around that space. *)
Theorem line_no_quoting (a b : list string) (x y : string) :
  line (a ++ (x ++ " " ++ y) :: b) = line (a ++ x :: y :: b).
Proof.
  unfold line. f_equal. rewrite !Join_concat.
  induction a as [|h a IH].
  - destruct b; cbn; now rewrite ?append_assoc.
  - cbn [app]. 
    assert (Hne : forall (u : string) (v : list string) (l : list string),
               String.concat " " (h :: (l ++ u :: v))
               = h ++ " " ++ String.concat " " (l ++ u :: v))
      by (intros u v [|z l]; reflexivity).
    now rewrite !Hne, IH.
Qed.

(** ** What the relays do in a process *)









(** ** The further properties on the sample worlds *)

Lemma config_errors_fatal_witness :
  occurs is_cfg_error (trace (snd (run_main world_no_config))) = true
  /\ fst (run_main world_no_config) = Exited 1
  /\ occurs is_read_file (trace (snd (run_main world_no_config))) = false.
Proof.
  split; [reflexivity|].
  destruct (config_errors_fatal world_no_config eq_refl)
    as (Hexit & _ & Hread & _).
  split; assumption.
Defined.

Lemma driver_error_fatal_witness :
  occurs is_driver_failed (trace (snd (run_main world_no_driver))) = true
  /\ fst (run_main world_no_driver) = Exited 1
  /\ occurs is_create (trace (snd (run_main world_no_driver))) = false.
Proof.
  split; [reflexivity|].
  destruct (driver_error_fatal world_no_driver eq_refl)
    as (Hexit & _ & Hcreate & _).
  split; assumption.
Defined.

Lemma create_request_contents_witness :
  In (EvCreate sample_request 5 (Ok sample_node))
     (trace (snd (run_main world_ok)))
  /\ head_in whitespace (node.SSHKey sample_request) = false
  /\ last_in whitespace (node.SSHKey sample_request) = false.
Proof.
  assert (H : In (EvCreate sample_request 5 (Ok sample_node))
                 (trace (snd (run_main world_ok))))
    by (vm_compute; do 6 right; left; reflexivity).
  split; [exact H|].
  destruct (create_request_contents world_ok sample_request 5
              (Ok sample_node) H)
    as (config & d & driver & _ & _ & _ & _ & _ & Hhead & Hlast).
  split; assumption.
Defined.

Lemma dial_config_contents_witness :
  In (EvDial "tcp" "10.0.0.1:22" sample_conf (Ok 1%nat))
     (trace (snd (run_main world_ok)))
  /\ exists signer req latency n,
       In (EvCreate req latency (Ok n)) (trace (snd (run_main world_ok)))
       /\ sample_conf = ssh.mkClientConfig (node.User req)
                          [ssh.PublicKeys signer] ssh.InsecureIgnoreHostKey
                          (10 * time.Second).
Proof.
  assert (H : In (EvDial "tcp" "10.0.0.1:22" sample_conf (Ok 1%nat))
                 (trace (snd (run_main world_ok))))
    by (vm_compute; do 13 right; left; reflexivity).
  split; [exact H|].
  destruct (dial_config_contents world_ok "tcp" "10.0.0.1:22" sample_conf
              (Ok 1%nat) H)
    as (config & pem & signer & req & latency & n & _ & _ & _ & Hc & Hconf & _).
  exists signer, req, latency, n. split; assumption.
Defined.

Lemma fail_fast_witness :
  occurs is_failure (trace (snd (run_main world_broken_pipe))) = true
  /\ fst (run_main world_broken_pipe) = Exited 1
  /\ count is_failure (trace (snd (run_main world_broken_pipe))) = 1%nat.
Proof.
  split; [reflexivity|].
  destruct (fail_fast world_broken_pipe) as (Hiff & _ & _ & Hlast).
  split; [exact (proj1 Hiff eq_refl) | exact (proj1 (Hlast eq_refl))].
Defined.

Lemma wait_failure_after_full_transmission_witness :
  occurs is_wait_failed (trace (snd (run_main world_wait_fails))) = true
  /\ fst (run_main world_wait_fails) = Exited 1
  /\ exists config c sess e,
       config_of (trace (snd (run_main world_wait_fails))) = Some config
       /\ filter is_new_session (trace (snd (run_main world_wait_fails)))
          = [EvNewSession c (Ok sess)]
       /\ filter is_wait (trace (snd (run_main world_wait_fails)))
          = [EvWait sess (Some e)]
       /\ written (snd (run_main world_wait_fails))
          = map (fun cmd => (SessionStdin sess, line cmd)) (cmds config).
Proof.
  split; [reflexivity|].
  destruct (wait_failure_after_full_transmission world_wait_fails eq_refl)
    as (Hexit & config & c & sess & e & Hc & Hs & _ & Hw & _ & _ & Hwr & _).
  split; [exact Hexit|].
  exists config, c, sess, e. repeat split; assumption.
Defined.

Lemma exit_status_meaning_witness :
  fst (run_main world_ok) = Returned
  /\ occurs is_wait_ok (trace (snd (run_main world_ok))) = true
  /\ fst (run_main world_no_address) = Crashed (IndexOutOfRange 0 0)
  /\ occurs is_key_parsed (trace (snd (run_main world_no_address))) = true.
Proof.
  split; [reflexivity|].
  destruct (exit_status_meaning world_ok) as (Hiff & _).
  split; [exact (proj1 Hiff eq_refl)|].
  split; [reflexivity|].
  destruct (exit_status_meaning world_no_address) as (_ & _ & Hcrash & _).
  exact (proj1 (proj2 (Hcrash (IndexOutOfRange 0 0) eq_refl))).
Defined.

Lemma main_sends_a_prefix_witness :
  config_of (trace (snd (run_main world_broken_pipe))) = Some sample_cfg
  /\ exists rest,
       String.concat "" (map line (cmds sample_cfg))
       = stdin_bytes (snd (run_main world_broken_pipe)) ++ rest.
Proof.
  split; [reflexivity|].
  exact (proj1 (main_sends_a_prefix world_broken_pipe sample_cfg eq_refl)).
Defined.


Lemma setup_order_witness :
  occurs is_dial (trace (snd (run_main world_ok))) = true
  /\ occurs is_shell (trace (snd (run_main world_ok))) = true
  /\ occurs is_key_parsed
       (before is_dial (trace (snd (run_main world_ok)))) = true
  /\ count is_go (before is_shell (trace (snd (run_main world_ok)))) = 2%nat.
Proof.
  split; [reflexivity|]. split; [reflexivity|].
  destruct (setup_order world_ok) as (_ & _ & Hdial & _ & _ & Hshell).
  split; [exact (proj2 (Hdial eq_refl)) | exact (Hshell eq_refl)].
Defined.
